(** * MeanderFlow: the geomorphology pipeline

    A shallow embedding of [utils/geomorphology.ts] (meander synthesis,
    hydraulic metrics, ecological assessment) together with the record
    types of [types.ts].

    Numbers.  A JavaScript [number] is modelled by its mathematical value:
    a rational, or one of the IEEE-754 special values NaN, +Infinity and
    -Infinity.  Arithmetic and comparisons follow IEEE-754 on the special
    values (NaN is absorbing and never compares, [x / 0] is an infinity or
    NaN) and are exact on finite values: rounding, overflow and the sign
    of zero are not modelled.

    Libraries.  [Math.sin], [Math.pow], number formatting and the
    [@turf/turf] geometry functions are not part of the repository; they
    are interfaces ([JSRuntime], [Turf]) of which the code is a client.
    What a theorem needs from them is stated as a named law.

    Errors.  [generateMeander] and [calculateHydraulics] below give the
    value of a run in which every call of turf returns.  turf raises
    on some arguments; [Raising.generateMeander] and
    [Raising.calculateHydraulics] are the two functions with these
    errors, and return the same value whenever they return
    ([generateMeander_returned_value]). *)

From Stdlib Require Import QArith Qround Qabs Lqa ZArith List String Bool Lia.
From Stdlib Require Import DecimalString.
Import ListNotations.

Set Implicit Arguments.

(* ================================================================== *)
(** * JavaScript numbers *)

Module Num.

Inductive number : Type :=
| NaN
| PosInf
| NegInf
| Fin (q : Q).

Definition Qltb (x y : Q) : bool := negb (Qle_bool y x).

(** The infinity with the sign of [x]; [NaN] when [x] is zero
    (the result of [Infinity * 0] and of [0 / 0]). *)
Definition inf_of_sign (x : Q) : number :=
  if Qltb 0 x then PosInf else if Qltb x 0 then NegInf else NaN.

Definition neg (a : number) : number :=
  match a with
  | NaN => NaN
  | PosInf => NegInf
  | NegInf => PosInf
  | Fin x => Fin (- x)
  end.

Definition add (a b : number) : number :=
  match a, b with
  | NaN, _ | _, NaN => NaN
  | PosInf, NegInf | NegInf, PosInf => NaN
  | PosInf, _ | _, PosInf => PosInf
  | NegInf, _ | _, NegInf => NegInf
  | Fin x, Fin y => Fin (x + y)
  end.

Definition sub (a b : number) : number := add a (neg b).

Definition mul (a b : number) : number :=
  match a, b with
  | NaN, _ | _, NaN => NaN
  | PosInf, PosInf | NegInf, NegInf => PosInf
  | PosInf, NegInf | NegInf, PosInf => NegInf
  | PosInf, Fin y | Fin y, PosInf => inf_of_sign y
  | NegInf, Fin y | Fin y, NegInf => inf_of_sign (- y)
  | Fin x, Fin y => Fin (x * y)
  end.

Definition div (a b : number) : number :=
  match a, b with
  | NaN, _ | _, NaN => NaN
  | PosInf, Fin y => if Qltb y 0 then NegInf else PosInf
  | NegInf, Fin y => if Qltb y 0 then PosInf else NegInf
  | PosInf, _ | NegInf, _ => NaN
  | Fin _, PosInf | Fin _, NegInf => Fin 0
  | Fin x, Fin y => if Qeq_bool y 0 then inf_of_sign x else Fin (x / y)
  end.

(** [a < b]; false as soon as one side is NaN. *)
Definition ltb (a b : number) : bool :=
  match a, b with
  | NaN, _ | _, NaN => false
  | _, NegInf => false
  | NegInf, _ => true
  | PosInf, _ => false
  | Fin _, PosInf => true
  | Fin x, Fin y => Qltb x y
  end.

(** [a === b] on numbers. *)
Definition eqb (a b : number) : bool :=
  match a, b with
  | PosInf, PosInf | NegInf, NegInf => true
  | Fin x, Fin y => Qeq_bool x y
  | _, _ => false
  end.

Definition gtb (a b : number) : bool := ltb b a.
Definition leb (a b : number) : bool := ltb a b || eqb a b.
Definition geb (a b : number) : bool := leb b a.

Definition is_nan (a : number) : bool :=
  match a with NaN => true | _ => false end.

Definition is_finite (a : number) : bool :=
  match a with Fin _ => true | _ => false end.

(** [Math.max(a, b)] and [Math.min(a, b)]: NaN if either argument is. *)
Definition Math_max (a b : number) : number :=
  match a, b with
  | NaN, _ | _, NaN => NaN
  | _, _ => if ltb a b then b else a
  end.

Definition Math_min (a b : number) : number :=
  match a, b with
  | NaN, _ | _, NaN => NaN
  | _, _ => if ltb b a then b else a
  end.

Definition Math_abs (a : number) : number :=
  match a with
  | NaN => NaN
  | PosInf | NegInf => PosInf
  | Fin x => Fin (Qabs x)
  end.

Definition Math_ceil (a : number) : number :=
  match a with
  | Fin x => Fin (inject_Z (Qceiling x))
  | _ => a
  end.

Definition Math_floor (a : number) : number :=
  match a with
  | Fin x => Fin (inject_Z (Qfloor x))
  | _ => a
  end.

(** [Math.PI], the double nearest to pi: 0x1.921fb54442d18p+1. *)
Definition Qpi : Q := 884279719003555 # 281474976710656.

Definition Math_PI : number := Fin Qpi.

(** Same mathematical value (the representation of a rational is not
    unique). *)
Definition same (a b : number) : Prop :=
  match a, b with
  | NaN, NaN | PosInf, PosInf | NegInf, NegInf => True
  | Fin x, Fin y => x == y
  | _, _ => False
  end.

End Num.

Export Num.

Declare Scope num_scope.
Delimit Scope num_scope with num.
Bind Scope num_scope with number.

Notation "a + b" := (add a b) : num_scope.
Notation "a - b" := (sub a b) : num_scope.
Notation "a * b" := (mul a b) : num_scope.
Notation "a / b" := (div a b) : num_scope.
Notation "a <? b" := (ltb a b) : num_scope.
Notation "a >? b" := (gtb a b) : num_scope.
Notation "a <=? b" := (leb a b) : num_scope.
Notation "a >=? b" := (geb a b) : num_scope.
Notation "a =? b" := (eqb a b) : num_scope.
Notation "a ~= b" := (same a b) (at level 70) : num_scope.

(** Numeric literals of the source, as exact decimals. *)
Notation "$ q" := (Fin q%Q) (at level 9, q at level 8, format "$ q") : num_scope.

Local Open Scope num_scope.

(* ================================================================== *)
(** * Data model ([types.ts] and the GeoJSON values of the pipeline) *)

Record GeoPoint : Type := mkGeoPoint {
  lat : number;
  lng : number
}.

(** A GeoJSON position [[lng, lat]]. *)
Definition Position : Type := (number * number)%type.

(** [Feature<LineString>]: only [geometry.coordinates] is ever read. *)
Record LineString : Type := mkLineString {
  coordinates : list Position
}.

Record StreamParams : Type := mkStreamParams {
  valleySlope : number;
  bankfullWidth : number;
  bankfullDepth : number;
  manningsN : number;
  sinuosityTarget : number;
  wavelength : number;
  amplitude : number;
  valleyLine : list GeoPoint
}.

Record HydraulicMetrics : Type := mkHydraulicMetrics {
  originalSlope : number;
  newSlope : number;
  sinuosityIndex : number;
  originalVelocity : number;
  newVelocity : number;
  shearStress : number;
  streamPower : number;
  channelLength : number;
  valleyLength : number;
  radiusOfCurvature : number
}.

Record EcologicalMetrics : Type := mkEcologicalMetrics {
  habitatUnits : number;
  hyporheicPotential : string;
  sedimentTransport : string
}.

Inductive StreamHealth : Type :=
| DEGRADED
| RECOVERING
| STABLE
| HIGH_RISK.

(** The object returned by [assessEcologicalHealth]. *)
Record Assessment : Type := mkAssessment {
  stats : EcologicalMetrics;
  health : StreamHealth;
  warnings : list string
}.

(* ================================================================== *)
(** * Library interfaces *)

(** The parts of the JavaScript runtime that are approximated by the
    engine or produce text. *)
Class JSRuntime : Type := {
  Math_sin : number -> number;
  Math_pow : number -> number -> number;
  (** [x.toFixed(digits)] *)
  toFixed : number -> nat -> string;
  (** a number interpolated into a template literal *)
  toString : number -> string
}.

(** The functions of [@turf/turf] that the pipeline calls, with
    [units: 'meters'] throughout.  Points ([Feature<Point>]) are
    represented by their coordinates.  Each member is the value that
    the call returns when it returns; the calls that raise an [Error]
    instead are described by [Raising.TurfRaises] below. *)
Class Turf : Type := {
  (** [turf.lineString(coordinates)] *)
  turf_lineString : list Position -> LineString;
  (** [turf.bezierSpline(line, {resolution, sharpness})] *)
  turf_bezierSpline : LineString -> number -> number -> LineString;
  turf_length : LineString -> number;
  turf_along : LineString -> number -> Position;
  turf_bearing : Position -> Position -> number;
  (** [turf.destination(origin, distance, bearing)] *)
  turf_destination : Position -> number -> number -> Position
}.

(* ================================================================== *)
(** * The pipeline ([utils/geomorphology.ts]) *)

Section Geomorphology.

Context {JS : JSRuntime} {T : Turf}.

(** ** generateMeander *)

(** The body of the loop once [fraction] is known. *)
Definition meanderPointAtFraction (smoothedValley : LineString)
    (valleyLength safeWavelength amplitude fraction : number) : Position :=
  let distanceAlongValley := fraction * valleyLength in
  let centerPoint := turf_along smoothedValley distanceAlongValley in
  let lookAheadDist := Math_min (distanceAlongValley + $1) valleyLength in
  let lookAheadPoint := turf_along smoothedValley lookAheadDist in
  let bearing := turf_bearing centerPoint lookAheadPoint in
  let dampening := Math_sin (fraction * Math_PI) in
  let currentAmplitude := amplitude * Math_pow dampening $0.2 in
  let offset :=
    currentAmplitude
    * Math_sin (($2 * Math_PI / safeWavelength) * distanceAlongValley) in
  let offsetBearing := bearing + $90 in
  turf_destination centerPoint (Math_abs offset)
    (if offset >? $0 then offsetBearing else offsetBearing + $180).

(** The body of the loop at counter [i]. *)
Definition meanderPointAt (smoothedValley : LineString)
    (valleyLength safeWavelength amplitude totalSteps i : number) : Position :=
  let fraction := i / totalSteps in
  meanderPointAtFraction smoothedValley valleyLength safeWavelength
    amplitude fraction.

(** [for (let i = ...; i <= totalSteps; i++) meanderPoints.push(body(i))].
    The loop does not terminate when [totalSteps] is [Infinity]; [fuel]
    bounds the number of tests of the loop condition and [None] means
    that it was exhausted.  This is the run in which no call of turf
    raises; [Raising.meanderLoop] is the run with the errors. *)
Fixpoint meanderLoop (fuel : nat) (body : number -> Position)
    (totalSteps i : number) (meanderPoints : list Position)
  : option (list Position) :=
  match fuel with
  | O => None
  | S fuel' =>
      if i <=? totalSteps
      then meanderLoop fuel' body totalSteps (i + $1)
             (meanderPoints ++ [body i])
      else Some meanderPoints
  end.

(** The first [n] values of the loop counter that starts at [i]. *)
Fixpoint counters (n : nat) (i : number) : list number :=
  match n with
  | O => []
  | S n' => i :: counters n' (i + $1)
  end.

(** The value of [generateMeander] in a run in which every call of
    turf returns; [Raising.generateMeander] is the run with the errors
    that turf raises. *)
Definition generateMeander (fuel : nat) (valleyPoints : list GeoPoint)
    (amplitude wavelength pointsPerWave : number) : option LineString :=
  if (List.length valleyPoints <? 2)%nat then Some (turf_lineString [])
  else
    let coords := map (fun p => (lng p, lat p)) valleyPoints in
    let rawValleyLine := turf_lineString coords in
    let smoothedValley := turf_bezierSpline rawValleyLine $10000 $0.85 in
    let valleyLength := turf_length smoothedValley in
    let safeWavelength := Math_max wavelength $10 in
    let numWaves := valleyLength / safeWavelength in
    let totalSteps := Math_ceil (numWaves * pointsPerWave) in
    match
      meanderLoop fuel
        (meanderPointAt smoothedValley valleyLength safeWavelength
           amplitude totalSteps)
        totalSteps $0 []
    with
    | Some meanderPoints => Some (turf_lineString meanderPoints)
    | None => None
    end.

(** The default value of the optional parameter [pointsPerWave]. *)
Definition pointsPerWave_default : number := $20.

(** ** calculateHydraulics *)

(** The value of [calculateHydraulics] in a run in which
    [turf.lineString] returns. *)
Definition calculateHydraulics (params : StreamParams)
    (meanderGeo : LineString) : HydraulicMetrics :=
  let coords := map (fun p => (lng p, lat p)) (valleyLine params) in
  let valleyLine := turf_lineString coords in
  let valleyLength := turf_length valleyLine in
  let channelLength := turf_length meanderGeo in
  let si :=
    if valleyLength >? $0
    then Math_max $1 (channelLength / valleyLength)
    else $1 in
  let valleySlopeDecimal := valleySlope params / $100 in
  let channelSlopeDecimal :=
    if si >? $0 then valleySlopeDecimal / si else valleySlopeDecimal in
  let w := bankfullWidth params in
  let d := bankfullDepth params in
  let hydraulicRadius := (w * d) / (w + $2 * d) in
  let calculateVelocity := fun slope : number =>
    ($1 / manningsN params) * Math_pow hydraulicRadius ($2 / $3)
    * Math_pow slope $0.5 in
  let vOriginal := calculateVelocity valleySlopeDecimal in
  let vNew := calculateVelocity channelSlopeDecimal in
  let rho := $1000 in
  let g := $9.81 in
  let shearStress := rho * g * hydraulicRadius * channelSlopeDecimal in
  let area := w * d in
  let q := vNew * area in
  let streamPower := rho * g * q * channelSlopeDecimal in
  let radiusOfCurvature :=
    if amplitude params >? $0
    then Math_pow (wavelength params) $2
         / ($4 * Math_pow Math_PI $2 * amplitude params)
    else $0 in
  {| originalSlope := valleySlopeDecimal;
     newSlope := channelSlopeDecimal;
     sinuosityIndex := si;
     originalVelocity := vOriginal;
     newVelocity := vNew;
     shearStress := shearStress;
     streamPower := streamPower;
     channelLength := channelLength;
     valleyLength := valleyLength;
     radiusOfCurvature := radiusOfCurvature |}.

(** ** assessEcologicalHealth *)

(** The local constant [rcRatio]: the radius-to-width ratio with its
    guard. *)
Definition rcRatio (metrics : HydraulicMetrics) (params : StreamParams)
  : number :=
  if bankfullWidth params >? $0
  then radiusOfCurvature metrics / bankfullWidth params
  else $10.

(** The local constant [stressRatio]: the new shear stress over the
    shear stress at the original slope, with its guard. *)
Definition stressRatio (metrics : HydraulicMetrics) (params : StreamParams)
  : number :=
  if originalSlope metrics >? $0
  then shearStress metrics
       / ($1000 * $9.81
          * ((bankfullWidth params * bankfullDepth params)
             / (bankfullWidth params + $2 * bankfullDepth params))
          * originalSlope metrics)
  else $1.

Definition assessEcologicalHealth (metrics : HydraulicMetrics)
    (params : StreamParams) : Assessment :=
  let habitatSpacing := $6 * bankfullWidth params in
  let habitatUnits := Math_floor (channelLength metrics / habitatSpacing) in
  let rcRatio := rcRatio metrics params in
  let '(health, warnings) :=
    if (rcRatio <? $2.0) && (sinuosityIndex metrics >? $1.05)
    then (HIGH_RISK,
          [("CRITICAL: Radius of Curvature ("
            ++ toFixed (radiusOfCurvature metrics) 1
            ++ "m) is too tight for width ("
            ++ toString (bankfullWidth params)
            ++ "m). Ratio " ++ toFixed rcRatio 1 ++ " < 2.0.")%string])
    else if sinuosityIndex metrics <? $1.2
    then (DEGRADED, ["Channel is straightened. Low habitat diversity."%string])
    else if (sinuosityIndex metrics >? $1.2)
            && (sinuosityIndex metrics <? $1.5)
    then (RECOVERING, [])
    else (STABLE, []) in
  let hyporheic := "Low"%string in
  let hyporheic :=
    if sinuosityIndex metrics >? $1.3 then "Medium"%string else hyporheic in
  let hyporheic :=
    if sinuosityIndex metrics >? $1.5 then "High"%string else hyporheic in
  let stressRatio := stressRatio metrics params in
  let sediment := "Equilibrium"%string in
  let sediment :=
    if stressRatio <? $0.6 then "Aggradation (Deposition)"%string
    else sediment in
  let sediment :=
    if stressRatio >? $1.2 then "Degradation (Scour)"%string else sediment in
  {| stats := {| habitatUnits := habitatUnits;
                 hyporheicPotential := hyporheic;
                 sedimentTransport := sediment |};
     health := health;
     warnings := warnings |}.

End Geomorphology.

(* ================================================================== *)
(** * Errors raised by turf

    turf validates its arguments: [turf.lineString] raises an [Error]
    for an array of fewer than two positions, and [turf.along] raises
    when the distance is NaN (its walk runs past the last coordinate).
    [generateMeander] and [calculateHydraulics] catch nothing, so an
    error raised by one of their calls is their own outcome. *)

Module Raising.

(** How a call ends. *)
Inductive Outcome (A : Type) : Type :=
| Returned (value : A)
| Raised
| OutOfFuel.

Arguments Raised {A}.
Arguments OutOfFuel {A}.

(** The arguments on which the two functions raise. *)
Class TurfRaises (T : Turf) : Type := {
  lineString_raises : list Position -> bool;
  along_raises : LineString -> number -> bool
}.

Section Pipeline.

Context {JS : JSRuntime} {T : Turf} {R : TurfRaises T}.

(** [turf.lineString(coordinates)] *)
Definition lineString (coordinates : list Position) : Outcome LineString :=
  if lineString_raises coordinates then Raised
  else Returned (turf_lineString coordinates).

(** Whether one of the two calls of [turf.along] in the body of the
    loop raises at counter [i]. *)
Definition meanderPointAt_raises (smoothedValley : LineString)
    (valleyLength totalSteps i : number) : bool :=
  let fraction := i / totalSteps in
  let distanceAlongValley := fraction * valleyLength in
  let lookAheadDist := Math_min (distanceAlongValley + $1) valleyLength in
  along_raises smoothedValley distanceAlongValley
  || along_raises smoothedValley lookAheadDist.

(** The loop: an iteration whose body raises ends the loop, and nothing
    is pushed for it. *)
Fixpoint meanderLoop (fuel : nat) (raises : number -> bool)
    (body : number -> Position) (totalSteps i : number)
    (meanderPoints : list Position) : Outcome (list Position) :=
  match fuel with
  | O => OutOfFuel
  | S fuel' =>
      if i <=? totalSteps
      then
        if raises i then Raised
        else meanderLoop fuel' raises body totalSteps (i + $1)
               (meanderPoints ++ [body i])
      else Returned meanderPoints
  end.

Definition generateMeander (fuel : nat) (valleyPoints : list GeoPoint)
    (amplitude wavelength pointsPerWave : number) : Outcome LineString :=
  if (List.length valleyPoints <? 2)%nat then lineString []
  else
    let coords := map (fun p => (lng p, lat p)) valleyPoints in
    if lineString_raises coords then Raised
    else
      let rawValleyLine := turf_lineString coords in
      let smoothedValley := turf_bezierSpline rawValleyLine $10000 $0.85 in
      let valleyLength := turf_length smoothedValley in
      let safeWavelength := Math_max wavelength $10 in
      let numWaves := valleyLength / safeWavelength in
      let totalSteps := Math_ceil (numWaves * pointsPerWave) in
      match
        meanderLoop fuel
          (meanderPointAt_raises smoothedValley valleyLength totalSteps)
          (meanderPointAt smoothedValley valleyLength safeWavelength
             amplitude totalSteps)
          totalSteps $0 []
      with
      | Returned meanderPoints => lineString meanderPoints
      | Raised => Raised
      | OutOfFuel => OutOfFuel
      end.

(** [calculateHydraulics] builds the line string of the valley points
    before anything else. *)
Definition calculateHydraulics (params : StreamParams)
    (meanderGeo : LineString) : Outcome HydraulicMetrics :=
  let coords := map (fun p => (lng p, lat p)) (valleyLine params) in
  if lineString_raises coords then Raised
  else Returned (calculateHydraulics params meanderGeo).

End Pipeline.

(** [turf.lineString] raises for fewer than two positions
    ("coordinates must be an array of two or more positions"). *)
Definition lineString_needs_two {T : Turf} (R : TurfRaises T) : Prop :=
  forall coordinates : list Position,
    (List.length coordinates < 2)%nat ->
    lineString_raises coordinates = true.

(** [turf.along] raises for a distance of NaN. *)
Definition along_rejects_NaN {T : Turf} (R : TurfRaises T) : Prop :=
  forall line : LineString, along_raises line NaN = true.

End Raising.

(* ================================================================== *)
(** * Reference implementations of the interfaces

    These stand in for the JavaScript engine and for [@turf/turf] when
    the pipeline is run on a concrete input: a runtime whose [Math.sin]
    and [Math.pow] are rational approximations, and a geometry on the
    plane tangent to the sphere at (0, 0) (positions in degrees as turf
    reads them, Euclidean distance in metres to six decimals) with a
    cubic Bezier spline through the input points.  The theorems do not
    depend on them; they hold for every implementation of the
    interfaces that obeys the laws they name. *)

Module Planar.

Definition nred (a : number) : number :=
  match a with Fin x => Fin (Qred x) | _ => a end.

(** ** Runtime *)

Definition scale : Z := 1000000.

(** Largest [r] in [[lo, hi)] with [r ^ k <= n], by bisection. *)
Fixpoint root_bisect (fuel : nat) (k : positive) (n lo hi : Z) : Z :=
  match fuel with
  | O => lo
  | S fuel' =>
      if (hi - lo <=? 1)%Z then lo
      else
        let mid := ((lo + hi) / 2)%Z in
        if (Z.pow_pos mid k <=? n)%Z
        then root_bisect fuel' k n mid hi
        else root_bisect fuel' k n lo mid
  end.

Definition Zroot (k : positive) (n : Z) : Z :=
  match k with
  | 2%positive => Z.sqrt n
  | _ => root_bisect (S (Z.to_nat (Z.log2_up (n + 2)))) k n 0 (n + 1)
  end.

(** [x ^ (p / q)] for [0 <= x], rounded down to six decimals. *)
Definition Qpow_pos (x : Q) (p q : positive) : Q :=
  (inject_Z (Zroot q (Qfloor (Qpower_positive x p
                              * inject_Z (Z.pow_pos scale q))))
   / inject_Z scale)%Q.

Definition Qis_integer (e : Q) : bool := Qeq_bool (inject_Z (Qfloor e)) e.

Definition pow (a b : number) : number :=
  match b with
  | NaN => NaN
  | Fin e =>
      if Qeq_bool e 0 then $1
      else
        match a with
        | NaN => NaN
        | PosInf => if Qltb 0 e then PosInf else $0
        | NegInf =>
            if Qltb 0 e
            then (if Qis_integer e && Z.odd (Qfloor e) then NegInf else PosInf)
            else $0
        | Fin x =>
            if Qis_integer e
            then (if Qeq_bool x 0 && Qltb e 0 then PosInf
                  else Fin (Qred (Qpower x (Qfloor e))))
            else if Qltb x 0 then NaN
            else
              let e' := Qred (Qabs e) in
              let r := Fin (Qred (Qpow_pos x (Z.to_pos (Qnum e')) (Qden e'))) in
              if Qltb 0 e then r else $1 / r
        end
  | PosInf =>
      match Math_abs a with
      | Fin x => if Qltb 1 x then PosInf else if Qltb x 1 then $0 else NaN
      | other => other
      end
  | NegInf =>
      match Math_abs a with
      | Fin x => if Qltb 1 x then $0 else if Qltb x 1 then PosInf else NaN
      | PosInf => $0
      | other => other
      end
  end.

(** Bhaskara's approximation of the sine on [[0, pi]]. *)
Definition Qsin_arch (x : Q) : Q :=
  ((16 * x * (Qpi - x)) / (5 * Qpi * Qpi - 4 * x * (Qpi - x)))%Q.

Definition Qsin (x : Q) : Q :=
  if Qle_bool 0 x && Qle_bool x Qpi then Qsin_arch x
  else
    let y := (x - (2 * Qpi) * inject_Z (Qfloor (x / (2 * Qpi))))%Q in
    if Qle_bool y Qpi then Qsin_arch y else (- Qsin_arch (y - Qpi))%Q.

Definition sin (a : number) : number :=
  match a with
  | Fin x => Fin (Qred (Qsin x))
  | _ => NaN
  end.

Definition cos (a : number) : number :=
  match a with
  | Fin x => Fin (Qred (Qsin (x + Qpi / 2)%Q))
  | _ => NaN
  end.

Definition Z_to_string (z : Z) : string :=
  NilZero.string_of_int (Z.to_int z).

Fixpoint pad_zeros (fuel width : nat) (s : string) : string :=
  match fuel with
  | O => s
  | S fuel' =>
      if (String.length s <? width)%nat
      then pad_zeros fuel' width ("0" ++ s)
      else s
  end.

(** [x.toFixed(digits)] of the exact decimal value, a tie rounded away
    from zero.  (The engine rounds the double nearest to the literal:
    [0.35.toFixed(1)] is "0.3" there because that double lies below
    0.35.) *)
Definition to_fixed (a : number) (digits : nat) : string :=
  match a with
  | NaN => "NaN"
  | PosInf => "Infinity"
  | NegInf => "-Infinity"
  | Fin x =>
      let p := (10 ^ Z.of_nat digits)%Z in
      let r := Qfloor (Qabs x * inject_Z p + (1 # 2))%Q in
      let sign := if Qltb x 0 && negb (r =? 0)%Z then "-" else "" in
      let int_part := Z_to_string (r / p) in
      match digits with
      | O => sign ++ int_part
      | _ => sign ++ int_part ++ "."
             ++ pad_zeros digits digits (Z_to_string (r mod p))
      end
  end%string.

Fixpoint strip_zeros (digits : string) : string :=
  match digits with
  | EmptyString => EmptyString
  | String c rest =>
      match strip_zeros rest with
      | EmptyString =>
          if String.eqb (String c EmptyString) "0" then EmptyString
          else String c EmptyString
      | rest' => String c rest'
      end
  end.

(** A number in a template literal: the shortest decimal, which is
    exact here for a number with at most fifteen decimals (the engine
    prints up to seventeen significant digits). *)
Definition to_string (a : number) : string :=
  match a with
  | NaN => "NaN"
  | PosInf => "Infinity"
  | NegInf => "-Infinity"
  | Fin x =>
      let p := (10 ^ 15)%Z in
      let r := Qfloor (Qabs x * inject_Z p + (1 # 2))%Q in
      let sign := if Qltb x 0 && negb (r =? 0)%Z then "-" else "" in
      let decimals := strip_zeros (pad_zeros 15 15 (Z_to_string (r mod p))) in
      match decimals with
      | EmptyString => sign ++ Z_to_string (r / p)
      | _ => sign ++ Z_to_string (r / p) ++ "." ++ decimals
      end
  end%string.

Definition runtime : JSRuntime :=
  {| Math_sin := sin; Math_pow := pow;
     toFixed := to_fixed; toString := to_string |}.

(** ** Geometry *)

Definition sqrt (a : number) : number :=
  match a with
  | NaN | NegInf => NaN
  | PosInf => PosInf
  | Fin x => if Qltb x 0 then NaN else Fin (Qred (Qpow_pos x 1 2))
  end.

Definition distance (p q : Position) : number :=
  let dx := fst q - fst p in
  let dy := snd q - snd p in
  sqrt (dx * dx + dy * dy).

(** Sum of the lengths of the segments. *)
Fixpoint length_from (cur : Position) (rest : list Position)
    (travelled : number) : number :=
  match rest with
  | [] => travelled
  | next :: rest' =>
      length_from next rest' (nred (travelled + distance cur next))
  end.

Definition length (line : LineString) : number :=
  match coordinates line with
  | [] => $0
  | first :: rest => length_from first rest $0
  end.

(** The point [overshot] (a negative distance) before [cur] on the
    segment that ends there. *)
Definition back_off (before : option Position) (cur : Position)
    (overshot : number) : Position :=
  if overshot =? $0 then cur
  else
    match before with
    | None => cur
    | Some b =>
        let k := overshot / distance cur b in
        (nred (fst cur + (fst cur - fst b) * k),
         nred (snd cur + (snd cur - snd b) * k))
    end.

(** Walk along the line until [distance] has been travelled. *)
Fixpoint along_loop (before : option Position) (cur : Position)
    (rest : list Position) (travelled dist : number) : Position :=
  match rest with
  | [] =>
      if dist >=? travelled then cur
      else if travelled >=? dist then back_off before cur (dist - travelled)
      else cur
  | next :: rest' =>
      if travelled >=? dist then back_off before cur (dist - travelled)
      else along_loop (Some cur) next rest'
             (nred (travelled + distance cur next)) dist
  end.

(** The value of [turf.along]; for a distance of NaN, on which turf
    raises ([raises] below), the walk ends at the last point. *)
Definition along (line : LineString) (dist : number) : Position :=
  match coordinates line with
  | [] => (NaN, NaN)
  | first :: rest => along_loop None first rest $0 dist
  end.

(** Arc tangent of [z] in degrees for [-1 <= z <= 1]. *)
Definition Qatan_deg (z : Q) : Q :=
  (z * (45 + 15.642 * (1 - Qabs z)))%Q.

(** Azimuth of [(dx, dy)] in degrees, clockwise from the [y] axis. *)
Definition Qazimuth (dx dy : Q) : Q :=
  if Qeq_bool dx 0 && Qeq_bool dy 0 then 0%Q
  else if Qle_bool (Qabs dx) (Qabs dy)
  then (if Qltb 0 dy then Qatan_deg (dx / dy)
        else if Qltb dx 0 then Qatan_deg (dx / dy) - 180
        else Qatan_deg (dx / dy) + 180)%Q
  else (if Qltb 0 dx then 90 - Qatan_deg (dy / dx)
        else - 90 - Qatan_deg (dy / dx))%Q.

Definition bearing (p q : Position) : number :=
  match fst q - fst p, snd q - snd p with
  | Fin dx, Fin dy => Fin (Qred (Qazimuth dx dy))
  | _, _ => NaN
  end.

Definition destination (origin : Position) (dist bearing : number)
  : Position :=
  let theta := bearing * Math_PI / $180 in
  (nred (fst origin + dist * sin theta),
   nred (snd origin + dist * cos theta)).

(** *** Cubic Bezier spline through the points *)

Definition lerp (s : number) (p q : Position) : Position :=
  (($1 - s) * fst p + s * fst q, ($1 - s) * snd p + s * snd q).

Definition midpoint (p q : Position) : Position :=
  ((fst p + fst q) / $2, (snd p + snd q) / $2).

(** The two control points at the inner vertex [p1] of [p0 p1 p2]. *)
Definition controls_at (sharpness : number) (p0 p1 p2 : Position)
  : Position * Position :=
  let c0 := midpoint p0 p1 in
  let c1 := midpoint p1 p2 in
  let m := midpoint c0 c1 in
  let dx := fst p1 - fst m in
  let dy := snd p1 - snd m in
  (lerp sharpness p1 (fst c0 + dx, snd c0 + dy),
   lerp sharpness p1 (fst c1 + dx, snd c1 + dy)).

(** [controls[i]] for every point: the end points are their own
    control points. *)
Fixpoint inner_controls (sharpness : number) (pts : list Position)
  : list (Position * Position) :=
  match pts with
  | p0 :: ((p1 :: p2 :: _) as tl) =>
      controls_at sharpness p0 p1 p2 :: inner_controls sharpness tl
  | [ _ ; last ] => [(last, last)]
  | _ => []
  end.

Definition controls (sharpness : number) (pts : list Position)
  : list (Position * Position) :=
  match pts with
  | [] => []
  | first :: _ => (first, first) :: inner_controls sharpness pts
  end.

Definition bezier (t : number) (p1 c1 c2 p2 : Position) : Position :=
  let u := $1 - t in
  let b0 := t * t * t in
  let b1 := $3 * t * t * u in
  let b2 := $3 * t * u * u in
  let b3 := u * u * u in
  (nred (fst p2 * b0 + fst c2 * b1 + fst c1 * b2 + fst p1 * b3),
   nred (snd p2 * b0 + snd c2 * b1 + snd c1 * b2 + snd p1 * b3)).

Definition nan_pos : Position := (NaN, NaN).

(** The point of the spline at [time] out of [duration]. *)
Definition spline_pos (pts : list Position)
    (ctl : list (Position * Position)) (duration : Q) (time : Q)
  : Position :=
  let t2 := (time / duration)%Q in
  if Qle_bool 1 t2 then last pts nan_pos
  else
    let segs := inject_Z (Z.of_nat (List.length pts) - 1) in
    let n := Z.to_nat (Qfloor (segs * t2)) in
    let t1 := (segs * t2 - inject_Z (Z.of_nat n))%Q in
    bezier (Fin t1) (nth n pts nan_pos) (snd (nth n ctl (nan_pos, nan_pos)))
      (fst (nth (S n) ctl (nan_pos, nan_pos))) (nth (S n) pts nan_pos).

(** The spline is sampled at [spline_intervals] equal time steps. *)
Definition spline_intervals : nat := 24.

Fixpoint spline_samples (count : nat) (pts : list Position)
    (ctl : list (Position * Position)) (duration step time : Q)
  : list Position :=
  match count with
  | O => [spline_pos pts ctl duration duration]
  | S count' =>
      spline_pos pts ctl duration time
      :: spline_samples count' pts ctl duration step (Qred (time + step))
  end.

Definition bezierSpline (line : LineString) (resolution sharpness : number)
  : LineString :=
  match resolution with
  | Fin duration =>
      match coordinates line with
      | _ :: _ :: _ =>
          let pts := coordinates line in
          let ctl := controls sharpness pts in
          let step := (duration / inject_Z (Z.of_nat spline_intervals))%Q in
          mkLineString
            (spline_samples spline_intervals pts ctl duration step 0)
      | _ => line
      end
  | _ => mkLineString []
  end.

(** *** Degrees

    turf reads a position as degrees of longitude and latitude and
    measures in metres.  The reference geometry is the plane tangent to
    the sphere at (0, 0): one degree of longitude or latitude is
    [metres_per_degree] metres (2 * pi * 6371008.8 / 360, the radius
    being the one turf uses), which differs from the sphere by less
    than a millionth within a few kilometres of (0, 0). *)

Definition metres_per_degree : number := $111194.9266.

Definition to_metres (p : Position) : Position :=
  (nred (fst p * metres_per_degree), nred (snd p * metres_per_degree)).

Definition to_degrees (p : Position) : Position :=
  (nred (fst p / metres_per_degree), nred (snd p / metres_per_degree)).

Definition metric (line : LineString) : LineString :=
  mkLineString (map to_metres (coordinates line)).

Definition geographic (line : LineString) : LineString :=
  mkLineString (map to_degrees (coordinates line)).

Definition turf : Turf :=
  {| turf_lineString := mkLineString;
     turf_bezierSpline := fun line resolution sharpness =>
       geographic (bezierSpline (metric line) resolution sharpness);
     turf_length := fun line => length (metric line);
     turf_along := fun line dist => to_degrees (along (metric line) dist);
     turf_bearing := fun p q => bearing (to_metres p) (to_metres q);
     turf_destination := fun origin dist b =>
       to_degrees (destination (to_metres origin) dist b) |}.

(** The two errors of turf. *)
Definition raises : Raising.TurfRaises turf :=
  {| Raising.lineString_raises := fun coordinates =>
       (List.length coordinates <? 2)%nat;
     Raising.along_raises := fun _ dist => is_nan dist |}.

End Planar.

(* ================================================================== *)
(** * The health classification as the specification words it

    An ordered list of rules, the first matching one wins; [STABLE]
    without warning is the default.  The ratio of rule 1 is the radius
    of curvature over the bankfull width, taken as +Infinity when the
    width is 0. *)

Section HealthRules.

Context {JS : JSRuntime}.

Definition spec_ratio (metrics : HydraulicMetrics) (params : StreamParams)
  : number :=
  if bankfullWidth params =? $0 then PosInf
  else radiusOfCurvature metrics / bankfullWidth params.

Definition spec_avulsion_warning (metrics : HydraulicMetrics)
    (params : StreamParams) : string :=
  ("CRITICAL: Radius of Curvature ("
   ++ toFixed (radiusOfCurvature metrics) 1
   ++ "m) is too tight for width ("
   ++ toString (bankfullWidth params)
   ++ "m). Ratio " ++ toFixed (spec_ratio metrics params) 1
   ++ " < 2.0.")%string.

Definition spec_straightened_warning : string :=
  "Channel is straightened. Low habitat diversity.".

(** A rule: its condition, the classification and the warnings. *)
Definition HealthRule : Type := (bool * (StreamHealth * list string))%type.

Definition spec_rules (metrics : HydraulicMetrics) (params : StreamParams)
  : list HealthRule :=
  let si := sinuosityIndex metrics in
  [ ((spec_ratio metrics params <? $2.0) && (si >? $1.05),
     (HIGH_RISK, [spec_avulsion_warning metrics params]));
    (si <? $1.2,
     (DEGRADED, [spec_straightened_warning]));
    (($1.2 <? si) && (si <? $1.5),
     (RECOVERING, [])) ].

Fixpoint first_match (rules : list HealthRule)
    (default : StreamHealth * list string) : StreamHealth * list string :=
  match rules with
  | [] => default
  | (true, verdict) :: _ => verdict
  | (false, _) :: rest => first_match rest default
  end.

Definition spec_classify (metrics : HydraulicMetrics) (params : StreamParams)
  : StreamHealth * list string :=
  first_match (spec_rules metrics params) (STABLE, []).

End HealthRules.

(* ================================================================== *)
(** * Sample inputs *)

Module Example.

(** The position [x] metres east and [y] metres north of (0, 0), in
    degrees. *)
Definition pos (x y : Q) : Position := Planar.to_degrees (Fin x, Fin y).

Definition pt (x y : Q) : GeoPoint :=
  {| lat := snd (pos x y); lng := fst (pos x y) |}.

(** A point given in degrees, as the map gives it. *)
Definition deg (lng lat : Q) : GeoPoint :=
  {| lat := Fin lat; lng := Fin lng |}.

(** The hydraulic parameters of [INITIAL_PARAMS] in [App.tsx]. *)
Definition params (valley : list GeoPoint) (amplitude wavelength : number)
  : StreamParams :=
  {| valleySlope := $2.5;
     bankfullWidth := $8;
     bankfullDepth := $1.2;
     manningsN := $0.045;
     sinuosityTarget := $1.0;
     wavelength := wavelength;
     amplitude := amplitude;
     valleyLine := valley |}.

(** A straight valley of 50 m. *)
Definition straight_valley : list GeoPoint := [pt 0 0; pt 30 40].

(** A valley with a right-angle bend: 30 m north, then 40 m east. *)
Definition bent_valley : list GeoPoint := [pt 0 0; pt 0 30; pt 40 30].


(** The same bend ten times smaller: about 3.3 m, then 4.4 m. *)
Definition small_bend : list GeoPoint :=
  [deg 0 0; deg 0 0.00003; deg 0.00004 0.00003].

(** Two clicks on the same spot. *)
Definition collapsed_valley : list GeoPoint := [pt 0 0; pt 0 0].

(** A channel of 70 m between the ends of [straight_valley]. *)
Definition detour : LineString :=
  mkLineString [pos 0 0; pos 0 40; pos 30 40].

End Example.

(* ================================================================== *)
(** * Preconditions and library laws used by the theorems *)

(** The smoothed valley axis that [generateMeander] builds. *)
Definition smoothedValleyOf {T : Turf} (valleyPoints : list GeoPoint)
  : LineString :=
  turf_bezierSpline
    (turf_lineString (map (fun p => (lng p, lat p)) valleyPoints))
    $10000 $0.85.

Definition positive_finite (a : number) : bool :=
  is_finite a && (a >? $0).

Definition nonneg_finite (a : number) : bool :=
  is_finite a && (a >=? $0).

(** The channel of the data model: width, depth and roughness are
    positive numbers. *)
Definition valid_channel (params : StreamParams) : bool :=
  positive_finite (bankfullWidth params)
  && positive_finite (bankfullDepth params)
  && positive_finite (manningsN params).

(** [Math.pow(x, 0.5)] is a non-negative number for [0 <= x] and does
    not decrease when [x] grows. *)
Definition pow_sqrt_monotone (JS : JSRuntime) : Prop :=
  forall x y : Q, (0 <= x)%Q -> (x <= y)%Q ->
    exists rx ry : Q,
      Math_pow (Fin x) $0.5 = Fin rx /\ Math_pow (Fin y) $0.5 = Fin ry
      /\ (0 <= rx)%Q /\ (rx <= ry)%Q.

(** [Math.pow(x, 2 / 3)] is a non-negative number for [0 <= x]. *)
Definition pow_two_thirds_nonneg (JS : JSRuntime) : Prop :=
  forall x : Q, (0 <= x)%Q ->
    exists r : Q, Math_pow (Fin x) ($2 / $3) = Fin r /\ (0 <= r)%Q.



(** [Math.pow(x, 0.2)] is a finite number for [0 <= x]. *)
Definition pow_fifth_finite (JS : JSRuntime) : Prop :=
  forall x : Q, (0 <= x)%Q -> exists r : Q, Math_pow (Fin x) $0.2 = Fin r.


(* ================================================================== *)
(** * The application state ([App.tsx]) and the parameter sliders
      ([components/Controls.tsx]) *)

Definition INITIAL_PARAMS : StreamParams :=
  {| valleySlope := $2.5;
     bankfullWidth := $8;
     bankfullDepth := $1.2;
     manningsN := $0.045;
     sinuosityTarget := $1.0;
     wavelength := $100;
     amplitude := $20;
     valleyLine :=
       [ {| lat := $(-29.356); lng := $29.997 |};
         {| lat := $(-29.354); lng := $30.001 |};
         {| lat := $(-29.352); lng := $30.005 |} ] |}.

(** [{ ...prev, valleyLine: newLine }] *)
Definition with_valleyLine (prev : StreamParams) (newLine : list GeoPoint)
  : StreamParams :=
  {| valleySlope := valleySlope prev;
     bankfullWidth := bankfullWidth prev;
     bankfullDepth := bankfullDepth prev;
     manningsN := manningsN prev;
     sinuosityTarget := sinuosityTarget prev;
     wavelength := wavelength prev;
     amplitude := amplitude prev;
     valleyLine := newLine |}.

(** [newLine[index] = point] on a copy of the array: an index inside
    the array replaces the element, the index just past the end appends;
    a larger index would leave holes, which [GeoPoint[]] does not
    describe: [None]. *)
Fixpoint array_set (line : list GeoPoint) (index : nat) (point : GeoPoint)
  : option (list GeoPoint) :=
  match line, index with
  | [], O => Some [point]
  | [], S _ => None
  | _ :: rest, O => Some (point :: rest)
  | first :: rest, S index' =>
      match array_set rest index' point with
      | Some rest' => Some (first :: rest')
      | None => None
      end
  end.

(** [line.filter((_, i) => i !== index)] *)
Fixpoint filter_index (line : list GeoPoint) (index : nat) : list GeoPoint :=
  match line, index with
  | [], _ => []
  | _ :: rest, O => rest
  | first :: rest, S index' => first :: filter_index rest index'
  end.

(** The handlers read the valley line of the [params] they were
    rendered with and update the state [prev] that React holds. *)
Definition handlePointMove (params prev : StreamParams) (index : nat)
    (point : GeoPoint) : option StreamParams :=
  match array_set (valleyLine params) index point with
  | Some newLine => Some (with_valleyLine prev newLine)
  | None => None
  end.

Definition handlePointAdd (prev : StreamParams) (point : GeoPoint)
  : StreamParams :=
  with_valleyLine prev (valleyLine prev ++ [point]).

Definition handlePointDelete (params prev : StreamParams) (index : nat)
  : StreamParams :=
  if (List.length (valleyLine params) <=? 2)%nat then prev
  else with_valleyLine prev (filter_index (valleyLine params) index).

(** The numeric keys of [StreamParams] ([handleChange] takes a number
    as value). *)
Inductive ParamKey : Type :=
| K_valleySlope
| K_bankfullWidth
| K_bankfullDepth
| K_manningsN
| K_sinuosityTarget
| K_wavelength
| K_amplitude.

(** [onChange({ ...params, [key]: value })] *)
Definition handleChange (params : StreamParams) (key : ParamKey)
    (value : number) : StreamParams :=
  {| valleySlope :=
       match key with K_valleySlope => value | _ => valleySlope params end;
     bankfullWidth :=
       match key with K_bankfullWidth => value | _ => bankfullWidth params end;
     bankfullDepth :=
       match key with K_bankfullDepth => value | _ => bankfullDepth params end;
     manningsN :=
       match key with K_manningsN => value | _ => manningsN params end;
     sinuosityTarget :=
       match key with
       | K_sinuosityTarget => value
       | _ => sinuosityTarget params
       end;
     wavelength :=
       match key with K_wavelength => value | _ => wavelength params end;
     amplitude :=
       match key with K_amplitude => value | _ => amplitude params end;
     valleyLine := valleyLine params |}.

(** What the user can do, each event handled by the handlers of the
    current render. *)
Inductive AppEvent : Type :=
| PointMove (index : nat) (point : GeoPoint)
| PointAdd (point : GeoPoint)
| PointDelete (index : nat)
| ParamChange (key : ParamKey) (value : number).

Definition app_step (params : StreamParams) (event : AppEvent)
  : option StreamParams :=
  match event with
  | PointMove index point => handlePointMove params params index point
  | PointAdd point => Some (handlePointAdd params point)
  | PointDelete index => Some (handlePointDelete params params index)
  | ParamChange key value => Some (handleChange params key value)
  end.

Fixpoint app_run (params : StreamParams) (events : list AppEvent)
  : option StreamParams :=
  match events with
  | [] => Some params
  | event :: rest =>
      match app_step params event with
      | Some params' => app_run params' rest
      | None => None
      end
  end.

(* ================================================================== *)
(** * What the map and the dashboard derive
      ([components/StreamMap.tsx], [components/MetricsDashboard.tsx]) *)

(** A Leaflet position [[lat, lng]]. *)
Definition LatLng : Type := (number * number)%type.

(** [params.valleyLine.map(p => [p.lat, p.lng])] *)
Definition valleyPositions (params : StreamParams) : list LatLng :=
  map (fun p => (lat p, lng p)) (valleyLine params).

(** [meanderGeo.geometry.coordinates.map(c => [c[1], c[0]])] *)
Definition meanderPositions (meanderGeo : LineString) : list LatLng :=
  map (fun c : Position => (snd c, fst c)) (coordinates meanderGeo).

(** An array index or length as a number. *)
Definition of_nat (n : nat) : number := Fin (inject_Z (Z.of_nat n)).

Section Presentation.

Context {JS : JSRuntime}.

(** The label and the colour of the marker [index] out of [total]
    ([DraggableMarker]). *)
Definition markerLabel (index total : number) : string * string :=
  let label := ("Point " ++ toString (index + $1))%string in
  let color := "text-slate-800"%string in
  let '(label, color) :=
    if index =? $0
    then ("Start (Upstream)"%string, "text-blue-600"%string)
    else (label, color) in
  let '(label, color) :=
    if index =? total - $1
    then ("End (Downstream)"%string, "text-red-600"%string)
    else (label, color) in
  (label, color).

End Presentation.

(** * Further library laws *)

(** [Math.sin(0)] is 0. *)
Definition sin_zero (JS : JSRuntime) : Prop :=
  forall x : Q, (x == 0)%Q ->
    exists y : Q, Math_sin (Fin x) = Fin y /\ (y == 0)%Q.

(** * The markers of the valley line ([components/StreamMap.tsx]) *)

(** [params.valleyLine.map((pt, idx) => <DraggableMarker index={idx}
    total={params.valleyLine.length} ... />)]: the label and the colour
    of each marker, in the order of the points. *)
Definition markers {JS : JSRuntime} (params : StreamParams)
  : list (string * string) :=
  map (fun idx : nat =>
         markerLabel (of_nat idx) (of_nat (List.length (valleyLine params))))
      (seq 0 (List.length (valleyLine params))).

(** * The sliders ([components/Controls.tsx]) *)

(** The [min] and [max] attributes of the range input of each
    parameter; [sinuosityTarget] has no slider. *)
Definition slider_range (key : ParamKey) : option (Q * Q) :=
  match key with
  | K_amplitude => Some (0, 200)%Q
  | K_wavelength => Some (20, 500)%Q
  | K_bankfullWidth => Some (1, 50)%Q
  | K_valleySlope => Some (0.1, 10)%Q
  | K_bankfullDepth => Some (0.5, 5)%Q
  | K_manningsN => Some (0.02, 0.15)%Q
  | K_sinuosityTarget => None
  end.

(** A value that the slider of [key] can hold. *)
Definition in_range (key : ParamKey) (value : number) : bool :=
  match slider_range key with
  | Some (lo, hi) => (Fin lo <=? value) && (value <=? Fin hi)
  | None => false
  end.

(** [params[key]] *)
Definition get_param (params : StreamParams) (key : ParamKey) : number :=
  match key with
  | K_valleySlope => valleySlope params
  | K_bankfullWidth => bankfullWidth params
  | K_bankfullDepth => bankfullDepth params
  | K_manningsN => manningsN params
  | K_sinuosityTarget => sinuosityTarget params
  | K_wavelength => wavelength params
  | K_amplitude => amplitude params
  end.

Definition sliders : list ParamKey :=
  [K_amplitude; K_wavelength; K_bankfullWidth; K_valleySlope;
   K_bankfullDepth; K_manningsN].

(** Every parameter that has a slider is within the range of its
    slider. *)
Definition within_slider_ranges (params : StreamParams) : bool :=
  forallb (fun key => in_range key (get_param params key)) sliders.

(** An event of the user interface: a parameter changes only through
    its slider. *)
Definition from_sliders (event : AppEvent) : bool :=
  match event with
  | ParamChange key value => in_range key value
  | _ => true
  end.

(** The "Added Length" of the dashboard, before formatting:
    [metrics.channelLength - metrics.valleyLength]. *)
Definition addedLength (metrics : HydraulicMetrics) : number :=
  channelLength metrics - valleyLength metrics.

(* ================================================================== *)
(** * Facts about numbers *)

Lemma Qltb_lt (x y : Q) : Qltb x y = true <-> (x < y)%Q.
Proof.
  unfold Qltb. rewrite negb_true_iff, <- not_true_iff_false, Qle_bool_iff.
  split; [apply Qnot_le_lt | apply Qlt_not_le].
Qed.

Lemma Qltb_ge (x y : Q) : Qltb x y = false <-> (y <= x)%Q.
Proof.
  unfold Qltb. rewrite negb_false_iff. apply Qle_bool_iff.
Qed.

Lemma Qeq_bool_false (x y : Q) : Qeq_bool x y = false <-> ~ (x == y)%Q.
Proof.
  rewrite <- not_true_iff_false, Qeq_bool_iff. reflexivity.
Qed.

Lemma Qle_bool_false (x y : Q) : Qle_bool x y = false <-> (y < x)%Q.
Proof.
  rewrite <- not_true_iff_false, Qle_bool_iff.
  split; [apply Qnot_le_lt | apply Qlt_not_le].
Qed.

(** Boolean tests on rationals, turned into propositions for [lra]. *)
Ltac qprop :=
  repeat match goal with
  | H : Qltb _ _ = true |- _ => apply Qltb_lt in H
  | H : Qltb _ _ = false |- _ => apply Qltb_ge in H
  | H : Qeq_bool _ _ = true |- _ => apply Qeq_bool_iff in H
  | H : Qeq_bool _ _ = false |- _ => apply Qeq_bool_false in H
  | H : Qle_bool _ _ = true |- _ => apply Qle_bool_iff in H
  | H : Qle_bool _ _ = false |- _ => apply Qle_bool_false in H
  | |- Qltb _ _ = true => apply Qltb_lt
  | |- Qltb _ _ = false => apply Qltb_ge
  | |- Qeq_bool _ _ = true => apply Qeq_bool_iff
  | |- Qeq_bool _ _ = false => apply Qeq_bool_false
  | |- Qle_bool _ _ = true => apply Qle_bool_iff
  | |- Qle_bool _ _ = false => apply Qle_bool_false
  end.

(** One case split on a rational test that occurs in the goal or in a
    hypothesis. *)
Ltac qcase :=
  match goal with
  | |- context [Qltb ?x ?y] => destruct (Qltb x y) eqn:?; qprop
  | |- context [Qeq_bool ?x ?y] => destruct (Qeq_bool x y) eqn:?; qprop
  | |- context [Qle_bool ?x ?y] => destruct (Qle_bool x y) eqn:?; qprop
  | H : context [Qltb ?x ?y] |- _ => destruct (Qltb x y) eqn:?; qprop
  | H : context [Qeq_bool ?x ?y] |- _ => destruct (Qeq_bool x y) eqn:?; qprop
  | H : context [Qle_bool ?x ?y] |- _ => destruct (Qle_bool x y) eqn:?; qprop
  end.

Ltac num_unfold :=
  unfold geb, leb, gtb, Math_max, Math_min, inf_of_sign in *; simpl in *.

(** Case analysis on the rational tests, closing each case by linear
    arithmetic. *)
Ltac num_crush :=
  repeat (progress num_unfold || qcase);
  qprop; try discriminate; try reflexivity; try tauto; try lra.

Example division_by_zero :
  $1 / $0 = PosInf /\ ($0 - $1) / $0 = NegInf /\ $0 / $0 = NaN.
Proof. repeat split. Qed.

Example NaN_never_compares :
  (NaN <? $1) = false /\ (NaN >=? $1) = false /\ (NaN =? NaN) = false.
Proof. repeat split. Qed.

Example Math_ceil_of_fraction : Math_ceil $0.025 = $1.
Proof. reflexivity. Qed.

Lemma leb_Fin (a b : Q) : (Fin a <=? Fin b) = true <-> (a <= b)%Q.
Proof.
  unfold leb, ltb, eqb. rewrite orb_true_iff, Qltb_lt, Qeq_bool_iff.
  split; [intros [H | H]; lra |].
  intros H. destruct (Qlt_le_dec a b); [left; assumption | right; lra].
Qed.

Lemma ltb_irrefl (a : number) : (a <? a) = false.
Proof. destruct a; num_crush. Qed.

Lemma ltb_asym (a b : number) : (a <? b) = true -> (b <? a) = false.
Proof. destruct a, b; num_crush. Qed.

Lemma ltb_trans (a b c : number) :
  (a <? b) = true -> (b <? c) = true -> (a <? c) = true.
Proof. destruct a, b, c; num_crush. Qed.

Lemma leb_ltb_trans (a b c : number) :
  (a <=? b) = true -> (b <? c) = true -> (a <? c) = true.
Proof. destruct a, b, c; num_crush. Qed.

Lemma eqb_not_ltb (a b : number) :
  (a =? b) = true -> (a <? b) = false /\ (b <? a) = false.
Proof. destruct a, b; num_crush. Qed.

Lemma geb_not_ltb (a b : number) :
  (a >=? b) = true -> (a <? b) = false.
Proof. destruct a, b; num_crush. Qed.

(** [Math.max] of two numbers other than NaN is one of them and is
    below neither. *)
Lemma Math_max_upper (a b : number) :
  is_nan a = false -> is_nan b = false ->
  (a <=? Math_max a b) = true /\ (b <=? Math_max a b) = true
  /\ (Math_max a b = a \/ Math_max a b = b).
Proof.
  destruct a as [| | |x], b as [| | |y]; try discriminate; intros _ _;
    unfold Math_max, ltb;
    try (destruct (Qltb x y) eqn:E; qprop);
    repeat split; auto; try (apply leb_Fin; lra).
Qed.

(** [Math.max(1, x)] is never below 1 and is at least 1 unless [x] is
    NaN. *)
Lemma Math_max_1_not_below (x : number) : (Math_max $1 x <? $1) = false.
Proof. destruct x; num_crush. Qed.

Lemma Math_max_1_ge (x : number) :
  is_nan x = false -> (Math_max $1 x >=? $1) = true.
Proof. destruct x; num_crush. Qed.

Lemma Math_max_1_cases (x : number) :
  Math_max $1 x = NaN \/ Math_max $1 x = PosInf
  \/ exists s, Math_max $1 x = Fin s /\ (1 <= s)%Q.
Proof.
  destruct x; simpl; auto.
  - right; right. exists 1%Q. split; [reflexivity | lra].
  - unfold Math_max, ltb. destruct (Qltb 1 q) eqn:E; qprop; right; right.
    + exists q. split; [reflexivity | lra].
    + exists 1%Q. split; [reflexivity | lra].
Qed.

(** A quotient of finite numbers by a positive one is finite. *)
Lemma div_finite_pos (a b : number) :
  is_finite a = true -> is_finite b = true -> (b >? $0) = true ->
  exists qa qb, a = Fin qa /\ b = Fin qb /\ (0 < qb)%Q
                /\ a / b = Fin (qa / qb).
Proof.
  destruct a as [| | |qa], b as [| | |qb]; try discriminate.
  intros _ _ Hb. num_unfold. qprop.
  exists qa, qb. repeat split; trivial.
  destruct (Qeq_bool qb 0) eqn:E; qprop; [lra | reflexivity].
Qed.

(* ================================================================== *)
(** * Hydraulic metrics *)

Section Hydraulics.

Context {JS : JSRuntime} {T : Turf}.

(** The lengths reported are the ones measured by [turf.length]. *)
Lemma calculateHydraulics_lengths (params : StreamParams)
    (meanderGeo : LineString) :
  let m := calculateHydraulics params meanderGeo in
  valleyLength m
  = turf_length
      (turf_lineString (map (fun p => (lng p, lat p)) (valleyLine params)))
  /\ channelLength m = turf_length meanderGeo.
Proof. split; reflexivity. Qed.

Lemma sinuosityIndex_eq (params : StreamParams) (meanderGeo : LineString) :
  let m := calculateHydraulics params meanderGeo in
  sinuosityIndex m
  = if valleyLength m >? $0
    then Math_max $1 (channelLength m / valleyLength m)
    else $1.
Proof. reflexivity. Qed.

(** The sinuosity index is NaN, +Infinity or a rational that is at
    least 1. *)
Lemma sinuosityIndex_cases (params : StreamParams) (meanderGeo : LineString) :
  let si := sinuosityIndex (calculateHydraulics params meanderGeo) in
  si = NaN \/ si = PosInf \/ exists s, si = Fin s /\ (1 <= s)%Q.
Proof.
  intros si. subst si. rewrite sinuosityIndex_eq.
  destruct (_ >? _).
  - apply Math_max_1_cases.
  - right; right. exists 1%Q. split; [reflexivity | lra].
Qed.

(** C1. [calculateHydraulics] measures the valley on the line string
    of the valley points and the channel on the path it is given.  For
    a valley line of at least two points and positive length the
    sinuosity index is [max(1, channelLength / valleyLength)] of these
    two lengths; it is never below 1 on any input, it is at least 1
    whenever the two lengths are finite numbers, and it is exactly 1
    when the valley length is 0. *)
Theorem C1_sinuosity_index (params : StreamParams) (meanderGeo : LineString) :
  let m := calculateHydraulics params meanderGeo in
  let valley :=
    turf_length
      (turf_lineString (map (fun p => (lng p, lat p)) (valleyLine params))) in
  let channel := turf_length meanderGeo in
  valleyLength m = valley
  /\ channelLength m = channel
  /\ ((2 <= List.length (valleyLine params))%nat ->
      (valley >? $0) = true ->
      sinuosityIndex m = Math_max $1 (channel / valley))
  /\ (sinuosityIndex m <? $1) = false
  /\ (is_finite valley = true ->
      is_finite channel = true ->
      (sinuosityIndex m >=? $1) = true)
  /\ ((valley =? $0) = true -> sinuosityIndex m = $1).
Proof.
  intros m valley channel.
  destruct (calculateHydraulics_lengths params meanderGeo) as [Hv Hc].
  fold m valley in Hv. fold m channel in Hc.
  split; [exact Hv |]. split; [exact Hc |].
  unfold m. rewrite sinuosityIndex_eq.
  fold (calculateHydraulics params meanderGeo). fold m.
  rewrite Hv, Hc.
  repeat split.
  - intros _ Hpos. rewrite Hpos. reflexivity.
  - destruct (valley >? $0).
    + apply Math_max_1_not_below.
    + reflexivity.
  - intros Hfv Hfc. destruct (valley >? $0) eqn:Hpos.
    + destruct (div_finite_pos _ _ Hfc Hfv Hpos)
        as (qa & qb & _ & _ & _ & Hq).
      apply Math_max_1_ge. rewrite Hq. reflexivity.
    + reflexivity.
  - intros Hz. destruct (eqb_not_ltb _ _ Hz) as [_ Hn].
    unfold gtb. rewrite Hn. reflexivity.
Qed.

End Hydraulics.

Lemma C1_sinuosity_index_witness :
  let params := Example.params Example.straight_valley $20 $100 in
  let m := @calculateHydraulics Planar.runtime Planar.turf params
             Example.detour in
  let valley :=
    @turf_length Planar.turf
      (mkLineString (map (fun p => (lng p, lat p)) (valleyLine params))) in
  let channel := @turf_length Planar.turf Example.detour in
  valleyLength m = valley
  /\ channelLength m = channel
  /\ sinuosityIndex m = Math_max $1 (channel / valley)
  /\ (sinuosityIndex m >=? $1) = true.
Proof.
  intros params m valley channel.
  destruct (@C1_sinuosity_index Planar.runtime Planar.turf params
              Example.detour) as (Hv & Hc & Ha & _ & Hb & _).
  split; [exact Hv |]. split; [exact Hc |]. split.
  - apply Ha; [simpl; lia | vm_compute; reflexivity].
  - apply Hb; vm_compute; reflexivity.
Defined.

(* ================================================================== *)
(** * Ecological assessment *)

Section Assessment.

Context {JS : JSRuntime}.

(** The classification and the warnings, as the chain of conditionals
    of the source computes them. *)
Lemma assess_health_warnings (metrics : HydraulicMetrics)
    (params : StreamParams) :
  let a := assessEcologicalHealth metrics params in
  (health a, warnings a)
  = if (rcRatio metrics params <? $2.0) && (sinuosityIndex metrics >? $1.05)
    then (HIGH_RISK,
          [("CRITICAL: Radius of Curvature ("
            ++ toFixed (radiusOfCurvature metrics) 1
            ++ "m) is too tight for width ("
            ++ toString (bankfullWidth params)
            ++ "m). Ratio " ++ toFixed (rcRatio metrics params) 1
            ++ " < 2.0.")%string])
    else if sinuosityIndex metrics <? $1.2
    then (DEGRADED, ["Channel is straightened. Low habitat diversity."%string])
    else if (sinuosityIndex metrics >? $1.2)
            && (sinuosityIndex metrics <? $1.5)
    then (RECOVERING, [])
    else (STABLE, []).
Proof.
  unfold assessEcologicalHealth.
  destruct ((rcRatio metrics params <? $2.0)
            && (sinuosityIndex metrics >? $1.05)); [reflexivity |].
  destruct (sinuosityIndex metrics <? $1.2); [reflexivity |].
  destruct ((sinuosityIndex metrics >? $1.2)
            && (sinuosityIndex metrics <? $1.5)); reflexivity.
Qed.

(** For a width that is not negative the guarded ratio of the code and
    the ratio of the specification decide rule 1 alike, and they are
    the same number when the rule fires. *)
Lemma rcRatio_spec_ratio (metrics : HydraulicMetrics) (params : StreamParams) :
  (bankfullWidth params <? $0) = false ->
  (rcRatio metrics params <? $2.0) = (spec_ratio metrics params <? $2.0)
  /\ ((rcRatio metrics params <? $2.0) = true ->
      rcRatio metrics params = spec_ratio metrics params).
Proof.
  unfold rcRatio, spec_ratio.
  destruct (bankfullWidth params) as [| | |w],
           (radiusOfCurvature metrics) as [| | |r];
    intros Hw; try discriminate Hw;
    try (split; [reflexivity | first [ discriminate | reflexivity ]]);
    simpl in Hw; qprop; unfold gtb, ltb, eqb;
    destruct (Qltb 0 w) eqn:Hpos, (Qeq_bool w 0) eqn:Hz; qprop;
    try lra;
    try (split; [reflexivity | first [ discriminate | reflexivity ]]).
Qed.

(** C2. For a bankfull width that is not negative the health class and
    the warnings are those of the first matching rule of the list
    HighRisk (ratio below 2.0 and index above 1.05, with the warning
    that cites radius, width and ratio), Degraded (index below 1.2,
    with the straightened-channel warning), Recovering (index strictly
    between 1.2 and 1.5), else Stable; when rule 1 does not fire an
    index equal to 1.2 or at least 1.5 gives Stable. *)
Theorem C2_health_classification (metrics : HydraulicMetrics)
    (params : StreamParams) :
  (bankfullWidth params <? $0) = false ->
  let a := assessEcologicalHealth metrics params in
  (health a, warnings a) = spec_classify metrics params
  /\ (((spec_ratio metrics params <? $2.0)
       && (sinuosityIndex metrics >? $1.05)) = false ->
      (sinuosityIndex metrics =? $1.2) = true
      \/ (sinuosityIndex metrics >=? $1.5) = true ->
      health a = STABLE).
Proof.
  intros Hw a.
  assert (Heq : (health a, warnings a) = spec_classify metrics params).
  { subst a. rewrite assess_health_warnings.
    destruct (rcRatio_spec_ratio metrics params Hw) as [Hfire Hsame].
    unfold spec_classify, spec_rules, first_match, spec_avulsion_warning,
      spec_straightened_warning.
    rewrite <- Hfire.
    destruct (rcRatio metrics params <? $2.0) eqn:Hr; simpl.
    - rewrite <- (Hsame eq_refl).
      destruct (sinuosityIndex metrics >? $1.05); [reflexivity |].
      destruct (sinuosityIndex metrics <? $1.2); [reflexivity |].
      reflexivity.
    - destruct (sinuosityIndex metrics <? $1.2); reflexivity. }
  split; [exact Heq |].
  intros Hrule1 Hsi.
  change (health a) with (fst (health a, warnings a)). rewrite Heq.
  unfold spec_classify, spec_rules, first_match. rewrite Hrule1.
  destruct Hsi as [Hsi | Hsi].
  - destruct (eqb_not_ltb _ _ Hsi) as [H1 H2]. rewrite H1, H2. reflexivity.
  - assert (H1 : (sinuosityIndex metrics <? $1.2) = false)
      by (destruct (sinuosityIndex metrics); num_crush).
    assert (H2 : (sinuosityIndex metrics <? $1.5) = false)
      by (apply geb_not_ltb; exact Hsi).
    rewrite H1, H2, andb_false_r. reflexivity.
Qed.

(** C8. With a bankfull width of 0 the ratio is not computed: the guard
    yields the constant 10, which the test of rule 1 treats as it would
    treat +Infinity, and the class is never HighRisk. *)
Theorem C8_zero_width_guard (metrics : HydraulicMetrics)
    (params : StreamParams) :
  (bankfullWidth params =? $0) = true ->
  rcRatio metrics params = $10
  /\ (rcRatio metrics params <? $2.0) = (PosInf <? $2.0)
  /\ health (assessEcologicalHealth metrics params) <> HIGH_RISK.
Proof.
  intros Hz.
  assert (Hr : rcRatio metrics params = $10).
  { unfold rcRatio, gtb. destruct (eqb_not_ltb _ _ Hz) as [_ Hn].
    rewrite Hn. reflexivity. }
  split; [exact Hr |]. split; [rewrite Hr; reflexivity |].
  change (health (assessEcologicalHealth metrics params))
    with (fst (health (assessEcologicalHealth metrics params),
               warnings (assessEcologicalHealth metrics params))).
  rewrite assess_health_warnings, Hr.
  change ($10 <? $2.0) with false. simpl.
  destruct (sinuosityIndex metrics <? $1.2); [discriminate |].
  destruct (_ && _); discriminate.
Qed.

(** The four possible outcomes. *)
Lemma assess_outcomes (metrics : HydraulicMetrics) (params : StreamParams) :
  let a := assessEcologicalHealth metrics params in
  (exists w, health a = HIGH_RISK /\ warnings a = [w])
  \/ (exists w, health a = DEGRADED /\ warnings a = [w])
  \/ (health a = RECOVERING /\ warnings a = [])
  \/ (health a = STABLE /\ warnings a = []).
Proof.
  intros a.
  pose proof (assess_health_warnings metrics params) as H. cbv zeta in H.
  fold a in H.
  destruct ((rcRatio metrics params <? $2.0)
            && (sinuosityIndex metrics >? $1.05));
    [| destruct (sinuosityIndex metrics <? $1.2);
       [| destruct ((sinuosityIndex metrics >? $1.2)
                    && (sinuosityIndex metrics <? $1.5))]];
    injection H as Hh Hws; rewrite Hh, Hws; eauto 6.
Qed.

(** C10. There is at most one warning; there is one exactly when the
    class is HighRisk or Degraded, and none with Recovering or Stable. *)
Theorem C10_warnings (metrics : HydraulicMetrics) (params : StreamParams) :
  let a := assessEcologicalHealth metrics params in
  (List.length (warnings a) <= 1)%nat
  /\ (warnings a <> [] <-> health a = HIGH_RISK \/ health a = DEGRADED)
  /\ (health a = RECOVERING \/ health a = STABLE -> warnings a = []).
Proof.
  intros a.
  destruct (assess_outcomes metrics params)
    as [(w & Hh & Hws) | [(w & Hh & Hws) | [(Hh & Hws) | (Hh & Hws)]]];
    fold a in Hh, Hws; rewrite Hh, Hws; simpl;
    (split; [lia |]);
    (split; [split; [intros Hne | intros [Hc | Hc]] | intros [Hc | Hc]]);
    try discriminate; try reflexivity; auto; try (exfalso; auto; fail).
Qed.

End Assessment.

Lemma C2_health_classification_witness :
  let metrics :=
    {| originalSlope := $0.025; newSlope := $0.025 / $1.2;
       sinuosityIndex := $1.2;
       originalVelocity := $3.3; newVelocity := $3.0;
       shearStress := $190; streamPower := $5700;
       channelLength := $600; valleyLength := $500;
       radiusOfCurvature := $100 |} in
  let params := Example.params Example.straight_valley $20 $100 in
  let a := @assessEcologicalHealth Planar.runtime metrics params in
  (health a, warnings a) = @spec_classify Planar.runtime metrics params
  /\ health a = STABLE.
Proof.
  intros metrics params a.
  destruct (@C2_health_classification Planar.runtime metrics params eq_refl)
    as [Hc Hs].
  split; [exact Hc |].
  apply Hs; [reflexivity | left; reflexivity].
Defined.

Lemma C8_zero_width_guard_witness :
  let metrics :=
    {| originalSlope := $0.025; newSlope := $0.02;
       sinuosityIndex := $1.25;
       originalVelocity := $3.3; newVelocity := $3.0;
       shearStress := $190; streamPower := $5700;
       channelLength := $625; valleyLength := $500;
       radiusOfCurvature := $1 |} in
  let params :=
    {| valleySlope := $2.5; bankfullWidth := $0; bankfullDepth := $1.2;
       manningsN := $0.045; sinuosityTarget := $1.0;
       wavelength := $20; amplitude := $10;
       valleyLine := Example.straight_valley |} in
  rcRatio metrics params = $10
  /\ (rcRatio metrics params <? $2.0) = (PosInf <? $2.0)
  /\ health (@assessEcologicalHealth Planar.runtime metrics params)
     <> HIGH_RISK.
Proof.
  intros metrics params.
  apply (@C8_zero_width_guard Planar.runtime metrics params).
  reflexivity.
Defined.

Lemma C10_warnings_witness :
  let metrics :=
    {| originalSlope := $0.025; newSlope := $0.02;
       sinuosityIndex := $1.25;
       originalVelocity := $3.3; newVelocity := $3.0;
       shearStress := $190; streamPower := $5700;
       channelLength := $625; valleyLength := $500;
       radiusOfCurvature := $100 |} in
  let params := Example.params Example.straight_valley $20 $100 in
  let a := @assessEcologicalHealth Planar.runtime metrics params in
  health a = RECOVERING /\ warnings a = [].
Proof.
  intros metrics params a.
  destruct (@C10_warnings Planar.runtime metrics params) as (_ & _ & Hn).
  split; [reflexivity |].
  apply Hn. left. reflexivity.
Defined.

(* ================================================================== *)
(** * Meander synthesis *)

Section Meander.

Context {JS : JSRuntime} {T : Turf} {R : Raising.TurfRaises T}.

Lemma generateMeander_loop (fuel : nat) (valleyPoints : list GeoPoint)
    (amplitude wavelength pointsPerWave : number) :
  (2 <= List.length valleyPoints)%nat ->
  let smoothedValley := smoothedValleyOf valleyPoints in
  let valleyLength := turf_length smoothedValley in
  let safeWavelength := Math_max wavelength $10 in
  let totalSteps :=
    Math_ceil (valleyLength / safeWavelength * pointsPerWave) in
  generateMeander fuel valleyPoints amplitude wavelength pointsPerWave
  = match
      meanderLoop fuel
        (meanderPointAt smoothedValley valleyLength safeWavelength
           amplitude totalSteps)
        totalSteps $0 []
    with
    | Some meanderPoints => Some (turf_lineString meanderPoints)
    | None => None
    end.
Proof.
  intros Hlen. unfold generateMeander.
  destruct (Nat.ltb_spec (List.length valleyPoints) 2); [lia | reflexivity].
Qed.

(** What [generateMeander] returns, if it returns, is what the run
    without errors gives. *)
Lemma meanderLoop_returned_value (fuel : nat) (raises : number -> bool)
    (body : number -> Position) (totalSteps : number) :
  forall (i : number) (meanderPoints result : list Position),
    Raising.meanderLoop fuel raises body totalSteps i meanderPoints
    = Raising.Returned result ->
    meanderLoop fuel body totalSteps i meanderPoints = Some result.
Proof.
  induction fuel as [|fuel IH]; intros i acc result H; simpl in *.
  - discriminate.
  - destruct (i <=? totalSteps).
    + destruct (raises i); [discriminate |]. apply IH. exact H.
    + injection H as <-. reflexivity.
Qed.

Lemma generateMeander_returned_value (fuel : nat)
    (valleyPoints : list GeoPoint)
    (amplitude wavelength pointsPerWave : number) (path : LineString) :
  Raising.generateMeander fuel valleyPoints amplitude wavelength pointsPerWave
  = Raising.Returned path ->
  generateMeander fuel valleyPoints amplitude wavelength pointsPerWave
  = Some path.
Proof.
  unfold Raising.generateMeander, generateMeander, Raising.lineString.
  destruct (List.length valleyPoints <? 2)%nat.
  - destruct (Raising.lineString_raises []); [discriminate |].
    intros H. injection H as <-. reflexivity.
  - destruct (Raising.lineString_raises _); [discriminate |].
    destruct (Raising.meanderLoop _ _ _ _ _ _) as [points | |] eqn:Hloop;
      try discriminate.
    rewrite (meanderLoop_returned_value _ _ _ _ _ _ Hloop).
    destruct (Raising.lineString_raises points); [discriminate |].
    intros H. injection H as <-. reflexivity.
Qed.

(** C3. With fewer than two valley points [generateMeander] takes its
    early return, [return turf.lineString([])].  [turf.lineString]
    raises for an array of fewer than two positions, so the call raises
    and [generateMeander] with it: no empty path is returned, whatever
    the other arguments.  [calculateHydraulics] on the same valley line
    raises as well, on the line string of the valley points, whatever
    the path it is given. *)
Theorem C3_too_few_points (fuel : nat) (valleyPoints : list GeoPoint)
    (amplitude wavelength pointsPerWave : number) (params : StreamParams)
    (meanderGeo : LineString) :
  Raising.lineString_needs_two R ->
  (List.length valleyPoints < 2)%nat ->
  Raising.lineString [] = Raising.Raised
  /\ Raising.generateMeander fuel valleyPoints amplitude wavelength
       pointsPerWave
     = Raising.Raised
  /\ (valleyLine params = valleyPoints ->
      Raising.calculateHydraulics params meanderGeo = Raising.Raised).
Proof.
  intros Hlaw Hlen.
  assert (Hempty : Raising.lineString [] = Raising.Raised).
  { unfold Raising.lineString. rewrite Hlaw by (simpl; lia). reflexivity. }
  split; [exact Hempty |]. split.
  - unfold Raising.generateMeander.
    destruct (Nat.ltb_spec (List.length valleyPoints) 2);
      [exact Hempty | lia].
  - intros Hline. unfold Raising.calculateHydraulics.
    rewrite Hlaw; [reflexivity |].
    rewrite length_map, Hline. exact Hlen.
Qed.

(** The step count of an axis of length 0 is 0. *)
Lemma totalSteps_zero_length (wavelength pointsPerWave : number) (z : Q) :
  is_nan wavelength = false -> is_finite pointsPerWave = true ->
  (z == 0)%Q ->
  Math_ceil (Fin z / Math_max wavelength $10 * pointsPerWave) = $0.
Proof.
  intros Hw Hp Hz.
  destruct pointsPerWave as [| | |p]; try discriminate.
  assert (Hq : exists x, Fin z / Math_max wavelength $10 = Fin x
                         /\ (x == 0)%Q).
  { destruct wavelength as [| | |w]; try discriminate.
    - exists 0%Q. split; reflexivity.
    - exists (z / 10)%Q. split; [reflexivity |]. rewrite Hz. reflexivity.
    - unfold Math_max, ltb. destruct (Qltb w 10) eqn:Hw10; qprop.
      + exists (z / 10)%Q. split; [reflexivity |]. rewrite Hz. reflexivity.
      + unfold div. destruct (Qeq_bool w 0) eqn:Hw0; qprop; [lra |].
        exists (z / w)%Q. split; [reflexivity |]. rewrite Hz.
        unfold Qdiv. ring. }
  destruct Hq as (x & -> & Hx). simpl.
  assert (Hc : Qceiling (x * p) = 0%Z).
  { assert (Hxp : (x * p == 0)%Q) by (rewrite Hx; ring).
    rewrite Hxp. reflexivity. }
  rewrite Hc. reflexivity.
Qed.

(** C7. When the smoothed axis has length 0 the step count is 0 and the
    loop enters its first iteration, but the fraction [0 / 0] of that
    iteration is NaN, not 0, and so is the distance along the valley:
    [turf.along] raises on it, nothing is pushed and [generateMeander]
    ends with that error instead of a single point. *)
Theorem C7_zero_length_axis (fuel : nat) (valleyPoints : list GeoPoint)
    (amplitude wavelength pointsPerWave : number) (z : Q) :
  Raising.along_rejects_NaN R ->
  (2 <= List.length valleyPoints)%nat ->
  (1 <= fuel)%nat ->
  is_nan wavelength = false ->
  is_finite pointsPerWave = true ->
  turf_length (smoothedValleyOf valleyPoints) = Fin z ->
  (z == 0)%Q ->
  let safeWavelength := Math_max wavelength $10 in
  let totalSteps := Math_ceil (Fin z / safeWavelength * pointsPerWave) in
  totalSteps = $0
  /\ $0 / totalSteps = NaN
  /\ $0 / totalSteps * Fin z = NaN
  /\ Raising.generateMeander fuel valleyPoints amplitude wavelength
       pointsPerWave
     = Raising.Raised.
Proof.
  intros Hlaw Hlen Hfuel Hw Hp Hlength Hz safeWavelength totalSteps.
  assert (Hts : totalSteps = $0)
    by (apply totalSteps_zero_length; assumption).
  split; [exact Hts |]. split; [rewrite Hts; reflexivity |].
  split; [rewrite Hts; reflexivity |].
  unfold Raising.generateMeander.
  destruct (Nat.ltb_spec (List.length valleyPoints) 2); [lia |].
  destruct (Raising.lineString_raises _); [reflexivity |].
  fold (smoothedValleyOf valleyPoints). cbv zeta. rewrite Hlength.
  fold safeWavelength. fold totalSteps. rewrite Hts.
  destruct fuel as [|fuel]; [lia |].
  simpl Raising.meanderLoop.
  change ($0 <=? $0) with true. cbv iota.
  unfold Raising.meanderPointAt_raises.
  change ($0 / $0) with NaN. change (NaN * Fin z) with NaN.
  rewrite Hlaw. reflexivity.
Qed.

End Meander.

Lemma Planar_lineString_needs_two :
  Raising.lineString_needs_two Planar.raises.
Proof.
  intros coordinates H. apply Nat.ltb_lt. exact H.
Qed.

Lemma Planar_along_rejects_NaN : Raising.along_rejects_NaN Planar.raises.
Proof. intros line. reflexivity. Qed.

Lemma C3_too_few_points_witness :
  @Raising.generateMeander Planar.runtime Planar.turf Planar.raises 0
    [Example.deg 0 0] $20 $100 pointsPerWave_default
  = Raising.Raised
  /\ @Raising.calculateHydraulics Planar.runtime Planar.turf Planar.raises
       (Example.params [Example.deg 0 0] $20 $100) (mkLineString [])
     = Raising.Raised.
Proof.
  destruct (@C3_too_few_points Planar.runtime Planar.turf Planar.raises 0
              [Example.deg 0 0] $20 $100 pointsPerWave_default
              (Example.params [Example.deg 0 0] $20 $100) (mkLineString []))
    as (_ & Hgen & Hcalc).
  - exact Planar_lineString_needs_two.
  - simpl. lia.
  - split; [exact Hgen |]. apply Hcalc. reflexivity.
Defined.

Lemma C7_zero_length_axis_witness :
  $0 / $0 = NaN
  /\ @Raising.generateMeander Planar.runtime Planar.turf Planar.raises 2
       Example.collapsed_valley $20 $100 pointsPerWave_default
     = Raising.Raised.
Proof.
  destruct (@C7_zero_length_axis Planar.runtime Planar.turf Planar.raises 2
              Example.collapsed_valley $20 $100 pointsPerWave_default 0)
    as (Hts & Hnan & _ & Hgen).
  - exact Planar_along_rejects_NaN.
  - simpl. lia.
  - lia.
  - reflexivity.
  - reflexivity.
  - vm_compute. reflexivity.
  - reflexivity.
  - split; [| exact Hgen].
    vm_compute in Hts. exact Hnan.
Defined.

(* ================================================================== *)
(** * Slope, velocity and shear stress *)

Lemma positive_finite_Fin (a : number) :
  positive_finite a = true -> exists q, a = Fin q /\ (0 < q)%Q.
Proof.
  destruct a as [| | |q]; try discriminate.
  unfold positive_finite. simpl. intros H. qprop. exists q. auto.
Qed.

Lemma nonneg_finite_Fin (a : number) :
  nonneg_finite a = true -> exists q, a = Fin q /\ (0 <= q)%Q.
Proof.
  destruct a as [| | |q]; try discriminate.
  unfold nonneg_finite. simpl. intros H. apply leb_Fin in H.
  exists q. auto.
Qed.

Lemma div_Fin_nonzero (a b : Q) :
  ~ (b == 0)%Q -> Fin a / Fin b = Fin (a / b).
Proof.
  intros Hb. unfold div. apply Qeq_bool_false in Hb. rewrite Hb. reflexivity.
Qed.

Lemma Qdiv_ge_1_le (a s : Q) : (0 <= a)%Q -> (1 <= s)%Q ->
  (0 <= a / s)%Q /\ (a / s <= a)%Q.
Proof.
  intros Ha Hs. split.
  - apply Qle_shift_div_l; lra.
  - apply Qle_shift_div_r; [lra | nra].
Qed.

Section SlopeAndVelocity.

Context {JS : JSRuntime} {T : Turf}.

(** With finite lengths the sinuosity index is a rational, at least 1. *)
Lemma sinuosityIndex_finite (params : StreamParams) (meanderGeo : LineString) :
  let m := calculateHydraulics params meanderGeo in
  is_finite (valleyLength m) = true ->
  is_finite (channelLength m) = true ->
  exists s, sinuosityIndex m = Fin s /\ (1 <= s)%Q.
Proof.
  intros m Hv Hc. subst m. rewrite sinuosityIndex_eq.
  destruct (_ >? $0) eqn:Hpos.
  - destruct (div_finite_pos _ _ Hc Hv Hpos) as (qa & qb & _ & _ & _ & Hq).
    rewrite Hq. unfold Math_max, ltb.
    destruct (Qltb 1 (qa / qb)) eqn:E; qprop.
    + exists (qa / qb)%Q. split; [reflexivity | lra].
    + exists 1%Q. split; [reflexivity | lra].
  - exists 1%Q. split; [reflexivity | lra].
Qed.

Lemma newSlope_eq (params : StreamParams) (meanderGeo : LineString) :
  let m := calculateHydraulics params meanderGeo in
  newSlope m
  = if sinuosityIndex m >? $0
    then originalSlope m / sinuosityIndex m
    else originalSlope m.
Proof. reflexivity. Qed.

Lemma originalSlope_eq (params : StreamParams) (meanderGeo : LineString) :
  originalSlope (calculateHydraulics params meanderGeo)
  = valleySlope params / $100.
Proof. reflexivity. Qed.

(** Manning's velocity as [calculateHydraulics] evaluates it. *)
Lemma velocity_eq (params : StreamParams) (meanderGeo : LineString) :
  let m := calculateHydraulics params meanderGeo in
  let w := bankfullWidth params in
  let d := bankfullDepth params in
  let c := ($1 / manningsN params)
           * Math_pow ((w * d) / (w + $2 * d)) ($2 / $3) in
  originalVelocity m = c * Math_pow (originalSlope m) $0.5
  /\ newVelocity m = c * Math_pow (newSlope m) $0.5.
Proof. split; reflexivity. Qed.

(** C4. With finite lengths the new slope is the original slope divided
    by the sinuosity index.  For a valid channel (positive width, depth
    and roughness), a non-negative valley slope and a [Math.pow] whose
    square root is monotone, the new velocity does not exceed the
    original one when the index is above 1. *)
Theorem C4_slope_and_velocity (params : StreamParams)
    (meanderGeo : LineString) :
  let m := calculateHydraulics params meanderGeo in
  is_finite (valleyLength m) = true ->
  is_finite (channelLength m) = true ->
  newSlope m = originalSlope m / sinuosityIndex m
  /\ (pow_sqrt_monotone JS -> pow_two_thirds_nonneg JS ->
      valid_channel params = true ->
      nonneg_finite (valleySlope params) = true ->
      (sinuosityIndex m >? $1) = true ->
      (newVelocity m <=? originalVelocity m) = true).
Proof.
  intros m Hv Hc.
  destruct (sinuosityIndex_finite params meanderGeo Hv Hc) as (s & Hs & Hs1).
  fold m in Hs.
  assert (Hslope : newSlope m = originalSlope m / sinuosityIndex m).
  { subst m. rewrite newSlope_eq. fold (calculateHydraulics params meanderGeo).
    rewrite Hs. unfold gtb, ltb.
    assert (Hq : Qltb 0 s = true) by (qprop; lra).
    rewrite Hq. reflexivity. }
  split; [exact Hslope |].
  intros Hsqrt Hcube Hvalid Hvs _.
  unfold valid_channel in Hvalid.
  apply andb_true_iff in Hvalid as [Hvalid Hn].
  apply andb_true_iff in Hvalid as [Hw Hd].
  apply positive_finite_Fin in Hw as (w & Hw & Hw0).
  apply positive_finite_Fin in Hd as (d & Hd & Hd0).
  apply positive_finite_Fin in Hn as (n & Hn & Hn0).
  apply nonneg_finite_Fin in Hvs as (vs & Hvs & Hvs0).
  destruct (velocity_eq params meanderGeo) as [Ho Hnew].
  fold m in Ho, Hnew. rewrite Ho, Hnew, Hslope, Hs.
  subst m. rewrite originalSlope_eq, Hvs, Hw, Hd, Hn.
  change (Fin vs / $100) with (Fin (vs / 100)).
  rewrite (@div_Fin_nonzero (vs / 100) s) by lra.
  change ($1 / Fin n) with (if Qeq_bool n 0 then PosInf else Fin (1 / n)).
  assert (Hn' : Qeq_bool n 0 = false) by (qprop; lra). rewrite Hn'.
  change (Fin w * Fin d / (Fin w + $2 * Fin d))
    with (Fin (w * d) / Fin (w + 2 * d)).
  rewrite (@div_Fin_nonzero (w * d) (w + 2 * d)) by lra.
  assert (Hr : (0 <= w * d / (w + 2 * d))%Q)
    by (apply Qle_shift_div_l; nra).
  destruct (Hcube _ Hr) as (r & -> & Hr0).
  assert (Hvs' : (0 <= vs / 100)%Q) by (apply Qle_shift_div_l; lra).
  destruct (Qdiv_ge_1_le Hvs' Hs1) as [Hlo Hhi].
  destruct (Hsqrt _ _ Hlo Hhi) as (rx & ry & -> & -> & Hrx & Hry).
  simpl. apply leb_Fin.
  assert (Hinv : (0 < 1 / n)%Q) by (apply Qlt_shift_div_l; lra).
  assert (Hc0 : (0 <= 1 / n * r)%Q) by (apply Qmult_le_0_compat; lra).
  rewrite (Qmult_comm _ rx), (Qmult_comm _ ry).
  apply Qmult_le_compat_r; assumption.
Qed.

End SlopeAndVelocity.

(* ================================================================== *)
(** * The reference runtime obeys the laws *)

Lemma root_bisect_lower (fuel : nat) (k : positive) (n lo hi : Z) :
  (lo <= Planar.root_bisect fuel k n lo hi)%Z.
Proof.
  revert lo hi. induction fuel as [|fuel IH]; intros lo hi; simpl.
  - lia.
  - destruct (Z.leb_spec (hi - lo) 1); [lia |].
    assert (Hmid : (lo <= (lo + hi) / 2)%Z)
      by (apply Z.div_le_lower_bound; lia).
    destruct (Z.pow_pos ((lo + hi) / 2) k <=? n)%Z.
    + specialize (IH ((lo + hi) / 2)%Z hi). lia.
    + apply IH.
Qed.

Lemma Zroot_nonneg (k : positive) (n : Z) : (0 <= Planar.Zroot k n)%Z.
Proof.
  unfold Planar.Zroot.
  destruct k as [k|k|]; try apply root_bisect_lower.
  destruct k; try apply root_bisect_lower. apply Z.sqrt_nonneg.
Qed.

Lemma Qpow_pos_nonneg (x : Q) (p q : positive) : (0 <= Planar.Qpow_pos x p q)%Q.
Proof.
  unfold Planar.Qpow_pos. apply Qle_shift_div_l; [reflexivity |].
  rewrite Qmult_0_l. change 0%Q with (inject_Z 0). rewrite <- Zle_Qle.
  apply Zroot_nonneg.
Qed.

Lemma Qpow_pos_sqrt_monotone (x y : Q) :
  (x <= y)%Q -> (Planar.Qpow_pos x 1 2 <= Planar.Qpow_pos y 1 2)%Q.
Proof.
  intros Hxy. unfold Planar.Qpow_pos, Planar.Zroot.
  apply Qmult_le_compat_r; [| discriminate].
  rewrite <- Zle_Qle. apply Z.sqrt_le_mono. apply Qfloor_resp_le.
  apply Qmult_le_compat_r; [exact Hxy | discriminate].
Qed.

Lemma Planar_pow_half (x : Q) :
  (0 <= x)%Q ->
  Planar.pow (Fin x) $0.5 = Fin (Qred (Planar.Qpow_pos x 1 2)).
Proof.
  intros Hx. unfold Planar.pow.
  change (Qeq_bool 0.5 0) with false.
  change (Planar.Qis_integer 0.5) with false. cbv iota.
  assert (Hneg : Qltb x 0 = false) by (qprop; exact Hx).
  rewrite Hneg. reflexivity.
Qed.

Lemma Planar_pow_sqrt_monotone : pow_sqrt_monotone Planar.runtime.
Proof.
  intros x y Hx Hxy.
  exists (Qred (Planar.Qpow_pos x 1 2)), (Qred (Planar.Qpow_pos y 1 2)).
  change (@Math_pow Planar.runtime) with Planar.pow.
  rewrite !Planar_pow_half by lra.
  repeat split.
  - rewrite Qred_correct. apply Qpow_pos_nonneg.
  - rewrite !Qred_correct. apply Qpow_pos_sqrt_monotone. exact Hxy.
Qed.

Lemma Planar_pow_two_thirds_nonneg : pow_two_thirds_nonneg Planar.runtime.
Proof.
  intros x Hx.
  exists (Qred (Planar.Qpow_pos x 2 3)). split.
  - change (@Math_pow Planar.runtime) with Planar.pow.
    change ($2 / $3) with (Fin (2 # 3)). unfold Planar.pow.
    change (Qeq_bool (2 # 3) 0) with false.
    change (Planar.Qis_integer (2 # 3)) with false. cbv iota.
    assert (Hneg : Qltb x 0 = false) by (qprop; exact Hx).
    rewrite Hneg. reflexivity.
  - rewrite Qred_correct. apply Qpow_pos_nonneg.
Qed.

Lemma C4_slope_and_velocity_witness :
  let m := @calculateHydraulics Planar.runtime Planar.turf
             (Example.params Example.straight_valley $20 $100)
             Example.detour in
  newSlope m = originalSlope m / sinuosityIndex m
  /\ (newVelocity m <=? originalVelocity m) = true.
Proof.
  intros m.
  destruct (@C4_slope_and_velocity Planar.runtime Planar.turf
              (Example.params Example.straight_valley $20 $100)
              Example.detour) as [Hslope Hvel].
  - vm_compute. reflexivity.
  - vm_compute. reflexivity.
  - split; [exact Hslope |].
    apply Hvel.
    + exact Planar_pow_sqrt_monotone.
    + exact Planar_pow_two_thirds_nonneg.
    + reflexivity.
    + reflexivity.
    + vm_compute. reflexivity.
Defined.

(* ================================================================== *)
(** * Sediment transport *)

(** A product [k * o] that is zero with [0 < o] has a zero factor [k],
    which contradicts any sign found for [k * _]. *)
Ltac zero_factor :=
  match goal with
  | H : (?k * ?o == 0)%Q, Ho : (0 < ?o)%Q |- _ =>
      let Hk0 := fresh "Hk0" in
      assert (Hk0 : (k == 0)%Q)
        by (destruct (Qmult_integral _ _ H); [assumption | lra]);
      exfalso;
      repeat match goal with
             | H' : context [(k * _)%Q] |- _ => rewrite Hk0 in H'
             end;
      lra
  end.

(** [(k * (o / s)) / (k * o)] is [1 / s], at most 1 for [1 <= s]. *)
Ltac quotient_by_index :=
  match goal with
  | H : ~ (?k * ?o == 0)%Q, Hs1 : (1 <= ?s)%Q
    |- (?k * (?o / ?s) / (?k * ?o) <= _)%Q =>
      let Hk := fresh "Hk" in
      let Hz := fresh "Hz" in
      assert (Hk : ~ (k == 0)%Q)
        by (intro Hz; apply H; rewrite Hz; ring);
      assert ((k * (o / s) / (k * o) == 1 / s)%Q)
        by (field; repeat split; try assumption; intro; lra);
      assert ((1 / s <= 1)%Q)
        by (apply Qle_shift_div_r; lra);
      lra
  end.

(** A quotient [(k * n) / (k * o)] with [n] equal to [o] or to [o]
    divided by an index that is at least 1 never exceeds 1.2, whatever
    the factor [k] (a number, an infinity or NaN). *)
Lemma stress_quotient_bounded (k o : number) (si : number) :
  (o >? $0) = true ->
  si = NaN \/ si = PosInf \/ (exists s, si = Fin s /\ (1 <= s)%Q) ->
  let n := if si >? $0 then o / si else o in
  ((k * n) / (k * o) >? $1.2) = false.
Proof.
  intros Ho Hsi n. subst n.
  destruct Hsi as [-> | [-> | (s & -> & Hs)]].
  - destruct k as [| | |k], o as [| | |o]; num_crush;
      unfold Qdiv; rewrite Qmult_inv_r by assumption; lra.
  - destruct k as [| | |k], o as [| | |o]; num_crush.
    unfold Qdiv. setoid_replace (k * 0)%Q with 0%Q by ring.
    rewrite Qmult_0_l. lra.
  - destruct k as [| | |k], o as [| | |o]; num_crush;
      first [ zero_factor | quotient_by_index ].
Qed.

Section Sediment.

Context {JS : JSRuntime} {T : Turf}.

Lemma sedimentTransport_eq (metrics : HydraulicMetrics)
    (params : StreamParams) :
  sedimentTransport (stats (assessEcologicalHealth metrics params))
  = if stressRatio metrics params >? $1.2
    then "Degradation (Scour)"%string
    else if stressRatio metrics params <? $0.6
         then "Aggradation (Deposition)"%string
         else "Equilibrium"%string.
Proof.
  unfold assessEcologicalHealth.
  destruct ((rcRatio metrics params <? $2.0)
            && (sinuosityIndex metrics >? $1.05));
    [| destruct (sinuosityIndex metrics <? $1.2);
       [| destruct ((sinuosityIndex metrics >? $1.2)
                    && (sinuosityIndex metrics <? $1.5))]];
    simpl; destruct (stressRatio metrics params >? $1.2);
    destruct (stressRatio metrics params <? $0.6); reflexivity.
Qed.

(** The stress ratio of metrics that [calculateHydraulics] produced
    from the same parameters. *)
Lemma stressRatio_eq (params : StreamParams) (meanderGeo : LineString) :
  let m := calculateHydraulics params meanderGeo in
  let w := bankfullWidth params in
  let d := bankfullDepth params in
  let k := $1000 * $9.81 * ((w * d) / (w + $2 * d)) in
  stressRatio m params
  = if originalSlope m >? $0
    then (k * newSlope m) / (k * originalSlope m)
    else $1.
Proof. reflexivity. Qed.

(** C9. On the metrics that [calculateHydraulics] produced from the
    same parameters the stress ratio never exceeds 1.2, so the
    sediment regime is never "Degradation (Scour)"; the ratio is the
    fallback 1 when the original slope is not positive, and for a
    positive width, depth and valley slope and finite lengths it equals
    [newSlope / originalSlope], that is [1 / sinuosityIndex], which is
    at most 1. *)
Theorem C9_no_scour (params : StreamParams) (meanderGeo : LineString) :
  let m := calculateHydraulics params meanderGeo in
  let a := assessEcologicalHealth m params in
  sedimentTransport (stats a) <> "Degradation (Scour)"%string
  /\ (stressRatio m params >? $1.2) = false
  /\ ((originalSlope m >? $0) = false -> stressRatio m params = $1)
  /\ (positive_finite (bankfullWidth params) = true ->
      positive_finite (bankfullDepth params) = true ->
      positive_finite (valleySlope params) = true ->
      is_finite (valleyLength m) = true ->
      is_finite (channelLength m) = true ->
      stressRatio m params ~= newSlope m / originalSlope m
      /\ stressRatio m params ~= $1 / sinuosityIndex m
      /\ (stressRatio m params <=? $1) = true).
Proof.
  intros m a.
  assert (Hbound : (stressRatio m params >? $1.2) = false).
  { subst m. rewrite stressRatio_eq.
    destruct (originalSlope _ >? $0) eqn:Ho; [| reflexivity].
    rewrite newSlope_eq.
    apply stress_quotient_bounded;
      [exact Ho | apply sinuosityIndex_cases]. }
  split; [| split; [exact Hbound | split]].
  - subst a. rewrite sedimentTransport_eq, Hbound.
    destruct (stressRatio m params <? $0.6); discriminate.
  - intros Ho. subst m. rewrite stressRatio_eq, Ho. reflexivity.
  - intros Hw Hd Hvs Hv Hc.
    destruct (sinuosityIndex_finite params meanderGeo Hv Hc) as (s & Hs & Hs1).
    fold m in Hs.
    apply positive_finite_Fin in Hw as (w & Hw & Hw0).
    apply positive_finite_Fin in Hd as (d & Hd & Hd0).
    apply positive_finite_Fin in Hvs as (vs & Hvs & Hvs0).
    assert (Hslope : newSlope m = Fin (vs / 100 / s)).
    { subst m. rewrite newSlope_eq.
      fold (calculateHydraulics params meanderGeo).
      rewrite Hs, originalSlope_eq, Hvs.
      unfold gtb, ltb.
      assert (Hq : Qltb 0 s = true) by (qprop; lra).
      rewrite Hq. change (Fin vs / $100) with (Fin (vs / 100)).
      apply div_Fin_nonzero. lra. }
    assert (Hos : originalSlope m = Fin (vs / 100))
      by (subst m; rewrite originalSlope_eq, Hvs; reflexivity).
    assert (Hvs' : (0 < vs / 100)%Q) by (apply Qlt_shift_div_l; lra).
    assert (Hr : (0 < w * d / (w + 2 * d))%Q)
      by (apply Qlt_shift_div_l; nra).
    assert (Hsr : stressRatio m params
                  = Fin (1000 * 9.81 * (w * d / (w + 2 * d)) * (vs / 100 / s)
                         / (1000 * 9.81 * (w * d / (w + 2 * d)) * (vs / 100)))).
    { unfold m at 1. rewrite stressRatio_eq.
      fold (calculateHydraulics params meanderGeo). fold m.
      rewrite Hslope, Hos, Hw, Hd.
      assert (Hg : ($0 <? Fin (vs / 100)) = true) by (simpl; qprop; lra).
      unfold gtb. rewrite Hg.
      change (Fin w * Fin d / (Fin w + $2 * Fin d))
        with (Fin (w * d) / Fin (w + 2 * d)).
      rewrite (@div_Fin_nonzero (w * d) (w + 2 * d)) by lra.
      change ($1000 * $9.81 * Fin (w * d / (w + 2 * d)) * Fin (vs / 100 / s))
        with (Fin (1000 * 9.81 * (w * d / (w + 2 * d)) * (vs / 100 / s))).
      change ($1000 * $9.81 * Fin (w * d / (w + 2 * d)) * Fin (vs / 100))
        with (Fin (1000 * 9.81 * (w * d / (w + 2 * d)) * (vs / 100))).
      apply div_Fin_nonzero. nra. }
    assert (Hval : (1000 * 9.81 * (w * d / (w + 2 * d)) * (vs / 100 / s)
                    / (1000 * 9.81 * (w * d / (w + 2 * d)) * (vs / 100))
                    == 1 / s)%Q).
    { set (r := (w * d / (w + 2 * d))%Q) in *.
      set (o := (vs / 100)%Q) in *. field. repeat split; lra. }
    rewrite Hsr, Hslope, Hos, Hs.
    rewrite (@div_Fin_nonzero (vs / 100 / s) (vs / 100)) by lra.
    rewrite (@div_Fin_nonzero 1 s) by lra.
    repeat split.
    + simpl. rewrite Hval. field. lra.
    + simpl. exact Hval.
    + apply leb_Fin. rewrite Hval. apply Qle_shift_div_r; lra.
Qed.

End Sediment.

Lemma C9_no_scour_witness :
  let params := Example.params Example.straight_valley $20 $100 in
  let m := @calculateHydraulics Planar.runtime Planar.turf params
             Example.detour in
  stressRatio m params ~= $1 / sinuosityIndex m
  /\ (stressRatio m params <=? $1) = true.
Proof.
  intros params m.
  destruct (@C9_no_scour Planar.runtime Planar.turf params Example.detour)
    as (_ & _ & _ & H).
  destruct H as (_ & Hinv & Hle); try (vm_compute; reflexivity).
  split; assumption.
Defined.

(* ================================================================== *)
(** * Channel length against valley length *)

(** The sinuosity index exceeds 1 exactly when the channel is longer
    than a valley of positive length. *)
Lemma Math_max_1_above (c v : number) :
  ((if v >? $0 then Math_max $1 (c / v) else $1) >? $1)
  = (v >? $0) && (c >? v).
Proof.
  destruct c as [| | |c], v as [| | |v]; num_crush.
  - exfalso. assert (H' : (1 < c / v)%Q) by (apply Qlt_shift_div_l; lra).
    lra.
  - apply Qle_shift_div_r; lra.
  - apply Qle_shift_div_r; lra.
  - apply Qle_shift_div_r; lra.
Qed.

Section ChannelLength.

Context {JS : JSRuntime} {T : Turf}.

(** The index is the literal 1 whenever it does not exceed 1 and the
    lengths are finite. *)
Lemma Math_max_1_clamped (c v : number) :
  is_finite v = true -> is_finite c = true ->
  let si := if v >? $0 then Math_max $1 (c / v) else $1 in
  (si >? $1) = false -> si = $1.
Proof.
  destruct v as [| | |v]; try discriminate.
  destruct c as [| | |c]; try discriminate.
  intros _ _ si. subst si.
  destruct (Fin v >? $0) eqn:Hv; [| reflexivity].
  assert (Hv' : (0 < v)%Q) by (apply Qltb_lt; exact Hv).
  rewrite div_Fin_nonzero by lra.
  unfold Math_max. destruct ($1 <? Fin (c / v)) eqn:Hq; [| reflexivity].
  unfold gtb. rewrite Hq. discriminate.
Qed.

(** C5, as amended. For the path that [generateMeander] produces from
    the valley line, amplitude and wavelength of the parameters (the
    line string of the points it pushed), [calculateHydraulics] reports
    the length of the raw valley line and the length of that path as
    turf measures them.  The path is not
    bounded below by the valley line: the reported sinuosity index
    exceeds 1 exactly when the valley has positive length and the path
    is longer than it, and for finite lengths it is exactly 1
    otherwise. *)
Theorem C5_channel_longer_iff_sinuous (fuel : nat) (params : StreamParams)
    (pointsPerWave : number) (meanderGeo : LineString) :
  generateMeander fuel (valleyLine params) (amplitude params)
    (wavelength params) pointsPerWave = Some meanderGeo ->
  let m := calculateHydraulics params meanderGeo in
  let valley :=
    turf_length
      (turf_lineString (map (fun p => (lng p, lat p)) (valleyLine params))) in
  let channel := turf_length meanderGeo in
  (exists meanderPoints : list Position,
      meanderGeo = turf_lineString meanderPoints)
  /\ valleyLength m = valley
  /\ channelLength m = channel
  /\ (sinuosityIndex m >? $1) = (valley >? $0) && (channel >? valley)
  /\ (is_finite valley = true -> is_finite channel = true ->
      (sinuosityIndex m >? $1) = false -> sinuosityIndex m = $1).
Proof.
  intros Hrun m valley channel.
  split.
  { unfold generateMeander in Hrun.
    destruct (List.length (valleyLine params) <? 2)%nat.
    - injection Hrun as <-. eexists. reflexivity.
    - destruct (meanderLoop _ _ _ _ _) as [meanderPoints|];
        [| discriminate].
      injection Hrun as <-. eexists. reflexivity. }
  destruct (calculateHydraulics_lengths params meanderGeo) as [Hv Hc].
  fold m valley in Hv. fold m channel in Hc.
  split; [exact Hv |]. split; [exact Hc |].
  unfold m. rewrite sinuosityIndex_eq.
  fold (calculateHydraulics params meanderGeo). fold m.
  rewrite Hv, Hc. split.
  - apply Math_max_1_above.
  - apply Math_max_1_clamped.
Qed.

End ChannelLength.

Lemma C5_channel_longer_iff_sinuous_witness :
  exists path : LineString,
    @generateMeander Planar.runtime Planar.turf 3 Example.small_bend
      $0 $500 pointsPerWave_default = Some path
    /\ let m := @calculateHydraulics Planar.runtime Planar.turf
                  (Example.params Example.small_bend $0 $500) path in
       channelLength m = @turf_length Planar.turf path
       /\ (sinuosityIndex m >? $1)
          = (@turf_length Planar.turf (mkLineString
               (map (fun p => (lng p, lat p)) Example.small_bend)) >? $0)
            && (@turf_length Planar.turf path
                >? @turf_length Planar.turf (mkLineString
                     (map (fun p => (lng p, lat p)) Example.small_bend))).
Proof.
  destruct (@generateMeander Planar.runtime Planar.turf 3 Example.small_bend
              $0 $500 pointsPerWave_default) as [path|] eqn:Hrun;
    [| vm_compute in Hrun; discriminate Hrun].
  exists path. split; [reflexivity |].
  destruct (@C5_channel_longer_iff_sinuous Planar.runtime Planar.turf 3
              (Example.params Example.small_bend $0 $500)
              pointsPerWave_default path Hrun)
    as (_ & _ & Hc & Hsi & _).
  split; [exact Hc | exact Hsi].
Defined.

(** C5, counterexample. A valley with a right-angle bend of about 3.3 m
    and 4.4 m, amplitude 0 and a wavelength of 500 m: the smoothed axis
    is about 8 m long, so there is a single step and the path is the
    chord between the two ends of the axis, about 5.6 m long against a
    valley line of about 7.8 m. *)
Lemma C5_counterexample :
  exists path,
    @generateMeander Planar.runtime Planar.turf 3 Example.small_bend
      $0 $500 pointsPerWave_default = Some path
    /\ List.length (coordinates path) = 2%nat
    /\ let m := @calculateHydraulics Planar.runtime Planar.turf
                  (Example.params Example.small_bend $0 $500) path in
       (channelLength m <? $5.6) = true
       /\ (valleyLength m >? $7.7) = true
       /\ (channelLength m >=? valleyLength m) = false
       /\ sinuosityIndex m = $1.
Proof.
  eexists. split; [vm_compute; reflexivity |].
  split; [reflexivity |]. vm_compute. auto.
Qed.

(* ================================================================== *)
(** * The loop of [generateMeander] and the zero-amplitude path *)

Section ZeroAmplitude.

Context {JS : JSRuntime} {T : Turf}.

Lemma inject_Z_nat_nonneg (n : nat) : (0 <= inject_Z (Z.of_nat n))%Q.
Proof.
  change 0%Q with (inject_Z 0). rewrite <- Zle_Qle. apply Nat2Z.is_nonneg.
Qed.


(** With enough fuel the loop pushes the body at the [n] counters that
    pass its test. *)
Lemma meanderLoop_counters (n : nat) :
  forall (fuel : nat) (body : number -> Position) (qt qi : Q)
         (meanderPoints : list Position),
    (n < fuel)%nat ->
    (qi + inject_Z (Z.of_nat n) - 1 <= qt)%Q ->
    (qt < qi + inject_Z (Z.of_nat n))%Q ->
    meanderLoop fuel body (Fin qt) (Fin qi) meanderPoints
    = Some (meanderPoints ++ map body (counters n (Fin qi))).
Proof.
  induction n as [|n IH]; intros fuel body qt qi acc Hfuel Hlo Hhi;
    (destruct fuel as [|fuel]; [lia |]); simpl meanderLoop.
  - assert (Hc : (Fin qi <=? Fin qt) = false).
    { apply not_true_iff_false. rewrite leb_Fin.
      change (inject_Z (Z.of_nat 0)) with 0%Q in Hhi. lra. }
    rewrite Hc. simpl. rewrite app_nil_r. reflexivity.
  - rewrite Nat2Z.inj_succ, <- Z.add_1_r, inject_Z_plus in Hlo, Hhi.
    change (inject_Z 1) with 1%Q in Hlo, Hhi.
    pose proof (inject_Z_nat_nonneg n) as Hn.
    assert (Hc : (Fin qi <=? Fin qt) = true) by (apply leb_Fin; lra).
    rewrite Hc. change (Fin qi + $1) with (Fin (qi + 1)).
    rewrite IH by (try lia; lra).
    simpl counters. simpl map. rewrite <- app_assoc. reflexivity.
Qed.

(** The number of steps of an axis of positive length is a positive
    integer. *)
Lemma totalSteps_positive (len w : Q) :
  (0 < len)%Q ->
  exists c : Z,
    (1 <= c)%Z
    /\ Math_ceil (Fin len / Math_max (Fin w) $10 * pointsPerWave_default)
       = Fin (inject_Z c).
Proof.
  intros Hlen.
  assert (Hs : exists s, Math_max (Fin w) $10 = Fin s /\ (10 <= s)%Q).
  { unfold Math_max, ltb. destruct (Qltb w 10) eqn:E; qprop.
    - exists 10%Q. split; [reflexivity | lra].
    - exists w. split; [reflexivity | lra]. }
  destruct Hs as (s & -> & Hs).
  rewrite div_Fin_nonzero by lra.
  change (Fin (len / s) * pointsPerWave_default)
    with (Fin (len / s * 20)).
  simpl Math_ceil. exists (Qceiling (len / s * 20)). split; [| reflexivity].
  assert (Hpos : (0 < len / s * 20)%Q).
  { assert (0 < len / s)%Q by (apply Qlt_shift_div_l; lra). lra. }
  pose proof (Qle_ceiling (len / s * 20)) as Hc.
  assert (Hlt : (0 < inject_Z (Qceiling (len / s * 20)))%Q) by lra.
  change 0%Q with (inject_Z 0) in Hlt. rewrite <- Zlt_Qlt in Hlt. lia.
Qed.




End ZeroAmplitude.




Lemma Planar_pow_fifth_finite : pow_fifth_finite Planar.runtime.
Proof.
  intros x Hx. exists (Qred (Planar.Qpow_pos x 1 5)).
  change (@Math_pow Planar.runtime) with Planar.pow. unfold Planar.pow.
  change (Qeq_bool 0.2 0) with false.
  change (Planar.Qis_integer 0.2) with false. cbv iota.
  assert (Hneg : Qltb x 0 = false) by (qprop; exact Hx).
  rewrite Hneg. reflexivity.
Qed.



(* ================================================================== *)
(** * Sample runs on the reference implementations *)

Example run_hydraulics_detour :
  let m := @calculateHydraulics Planar.runtime Planar.turf
             (Example.params Example.straight_valley $20 $100)
             Example.detour in
  valleyLength m = $50 /\ channelLength m = $70
  /\ sinuosityIndex m ~= $1.4
  /\ newSlope m ~= $0.025 / $1.4.
Proof. vm_compute. repeat split. Qed.

Example run_assessment_avulsion :
  let metrics :=
    {| originalSlope := $0.025; newSlope := $0.025 / $1.3;
       sinuosityIndex := $1.3;
       originalVelocity := $3.3; newVelocity := $2.9;
       shearStress := $175; streamPower := $4900;
       channelLength := $650; valleyLength := $500;
       radiusOfCurvature := $12.7 |} in
  @assessEcologicalHealth Planar.runtime metrics
    (Example.params Example.straight_valley $20 $100)
  = {| stats := {| habitatUnits := $13;
                   hyporheicPotential := "Low";
                   sedimentTransport := "Equilibrium" |};
       health := HIGH_RISK;
       warnings :=
         ["CRITICAL: Radius of Curvature (12.7m) is too tight for width (8m). Ratio 1.6 < 2.0."%string] |}.
Proof. vm_compute. reflexivity. Qed.

(* ================================================================== *)
(** * Further properties of [generateMeander] *)

Lemma Math_max_below_floor (w : number) :
  (w <? $10) = true -> Math_max w $10 = $10.
Proof.
  destruct w as [| | |q]; try discriminate; intros H; [reflexivity |].
  unfold Math_max. rewrite H. reflexivity.
Qed.

Lemma div_NaN_r (a : number) : a / NaN = NaN.
Proof. destruct a; reflexivity. Qed.

(** The loop never leaves a step count of [Infinity]. *)
Lemma meanderLoop_infinite (fuel : nat) :
  forall (body : number -> Position) (q : Q) (meanderPoints : list Position),
    meanderLoop fuel body PosInf (Fin q) meanderPoints = None.
Proof.
  induction fuel as [|fuel IH]; intros body q acc; simpl; [reflexivity |].
  change (Fin q + $1) with (Fin (q + 1)). apply IH.
Qed.

Section MeanderEdges.

Context {JS : JSRuntime} {T : Turf} {R : Raising.TurfRaises T}.

(** X1. A wavelength below 10 m, -Infinity included, is replaced by
    10 m: the result is the one for a wavelength of 10. *)
Theorem X1_wavelength_floor (fuel : nat) (valleyPoints : list GeoPoint)
    (amplitude wavelength pointsPerWave : number) :
  (wavelength <? $10) = true ->
  generateMeander fuel valleyPoints amplitude wavelength pointsPerWave
  = generateMeander fuel valleyPoints amplitude $10 pointsPerWave.
Proof.
  intros Hw. unfold generateMeander.
  rewrite (Math_max_below_floor _ Hw). reflexivity.
Qed.

(** X2. With a wavelength of NaN the step count is NaN and the loop
    test fails at once, so [generateMeander] reaches
    [turf.lineString(meanderPoints)] with no point at all: as
    [turf.lineString] raises for fewer than two positions,
    [generateMeander] raises, for every valley of at least two
    points. *)
Theorem X2_NaN_wavelength (fuel : nat) (valleyPoints : list GeoPoint)
    (amplitude pointsPerWave : number) :
  Raising.lineString_needs_two R ->
  (2 <= List.length valleyPoints)%nat ->
  (1 <= fuel)%nat ->
  Math_ceil (turf_length (smoothedValleyOf valleyPoints)
             / Math_max NaN $10 * pointsPerWave) = NaN
  /\ Raising.generateMeander fuel valleyPoints amplitude NaN pointsPerWave
     = Raising.Raised.
Proof.
  intros Hlaw Hlen Hfuel.
  change (Math_max NaN $10) with NaN. rewrite div_NaN_r.
  split; [reflexivity |].
  unfold Raising.generateMeander.
  destruct (Nat.ltb_spec (List.length valleyPoints) 2); [lia |].
  destruct (Raising.lineString_raises _); [reflexivity |].
  cbv zeta. change (Math_max NaN $10) with NaN. rewrite div_NaN_r.
  destruct fuel as [|fuel]; [lia |].
  change (Math_ceil (NaN * pointsPerWave)) with NaN.
  simpl Raising.meanderLoop. change ($0 <=? NaN) with false. cbv iota.
  unfold Raising.lineString. rewrite Hlaw by (simpl; lia). reflexivity.
Qed.

(** X3. When the step count is +Infinity (an infinite axis length or
    number of points per wave) the loop never ends: no amount of fuel
    gives a path. *)
Theorem X3_infinite_steps (valleyPoints : list GeoPoint)
    (amplitude wavelength pointsPerWave : number) :
  (2 <= List.length valleyPoints)%nat ->
  Math_ceil (turf_length (smoothedValleyOf valleyPoints)
             / Math_max wavelength $10 * pointsPerWave) = PosInf ->
  forall fuel : nat,
    generateMeander fuel valleyPoints amplitude wavelength pointsPerWave
    = None.
Proof.
  intros Hlen Hsteps fuel. rewrite generateMeander_loop by exact Hlen.
  cbv zeta. fold (smoothedValleyOf valleyPoints). rewrite Hsteps.
  rewrite meanderLoop_infinite. reflexivity.
Qed.

(** X5. With a finite amplitude, a [Math.sin] that is 0 at 0 and the
    laws of the zero-amplitude case, the first point of the path is the
    point of the smoothed axis at distance 0, moved by a distance of
    zero: the path starts on the axis whatever the amplitude. *)
Theorem X5_path_starts_on_axis (fuel : nat) (valleyPoints : list GeoPoint)
    (a len w : Q) :
  sin_zero JS -> pow_fifth_finite JS ->
  (2 <= List.length valleyPoints)%nat ->
  turf_length (smoothedValleyOf valleyPoints) = Fin len ->
  (0 < len)%Q ->
  exists steps : Z,
    (1 <= steps)%Z
    /\ Math_ceil (Fin len / Math_max (Fin w) $10 * pointsPerWave_default)
       = Fin (inject_Z steps)
    /\ ((Z.to_nat steps + 2 <= fuel)%nat ->
        exists (first : Position) (rest : list Position) (d z : Q)
               (b : number),
          generateMeander fuel valleyPoints (Fin a) (Fin w)
            pointsPerWave_default
          = Some (turf_lineString (first :: rest))
          /\ (d == 0)%Q /\ (z == 0)%Q
          /\ first = turf_destination
                       (turf_along (smoothedValleyOf valleyPoints) (Fin d))
                       (Fin z) b).
Proof.
  intros Hsin Hpow Hpts Hlen Hpos.
  destruct (totalSteps_positive w Hpos) as (steps & Hsteps & Hts).
  exists steps. split; [exact Hsteps |]. split; [exact Hts |].
  intros Hfuel. rewrite generateMeander_loop by exact Hpts. cbv zeta.
  fold (smoothedValleyOf valleyPoints). rewrite Hlen, Hts.
  assert (Hs : exists s, Math_max (Fin w) $10 = Fin s /\ (10 <= s)%Q).
  { unfold Math_max, ltb. destruct (Qltb w 10) eqn:E; qprop.
    - exists 10%Q. split; [reflexivity | lra].
    - exists w. split; [reflexivity | lra]. }
  destruct Hs as (s & -> & Hs).
  assert (Hst : inject_Z (Z.of_nat (S (Z.to_nat steps)))
                = (inject_Z steps + 1)%Q :> Q).
  { rewrite Nat2Z.inj_succ, Z2Nat.id by lia.
    unfold Z.succ, inject_Z, Qplus. simpl.
    rewrite !Z.mul_1_r. reflexivity. }
  rewrite (@meanderLoop_counters (S (Z.to_nat steps)))
    by (try lia; rewrite Hst; lra).
  rewrite app_nil_l. simpl counters. simpl map.
  assert (Hsteps' : (1 <= inject_Z steps)%Q)
    by (change 1%Q with (inject_Z 1); rewrite <- Zle_Qle; exact Hsteps).
  unfold meanderPointAt at 1. rewrite div_Fin_nonzero by lra.
  unfold meanderPointAtFraction.
  set (f := (0 / inject_Z steps)%Q).
  assert (Hf : (f == 0)%Q) by (unfold f, Qdiv; ring).
  change (Fin f * Math_PI) with (Fin (f * Qpi)).
  destruct (Hsin (f * Qpi)%Q) as (y & -> & Hy); [rewrite Hf; ring |].
  destruct (Hpow y) as (r & ->); [lra |].
  change ($2 * Math_PI / Fin s) with (Fin (2 * Qpi) / Fin s).
  rewrite div_Fin_nonzero by lra.
  change (Fin (2 * Qpi / s) * (Fin f * Fin len))
    with (Fin (2 * Qpi / s * (f * len))).
  destruct (Hsin (2 * Qpi / s * (f * len))%Q) as (y2 & -> & Hy2);
    [rewrite Hf; ring |].
  change (Fin a * Fin r * Fin y2) with (Fin (a * r * y2)).
  change (Fin f * Fin len) with (Fin (f * len)).
  do 2 eexists. exists (f * len)%Q, (Qabs (a * r * y2)). eexists.
  split; [reflexivity |].
  split; [rewrite Hf; ring |].
  split; [rewrite Hy2; setoid_replace (a * r * 0)%Q with 0%Q by ring;
          reflexivity |].
  reflexivity.
Qed.

End MeanderEdges.

(* ================================================================== *)
(** * Further properties of the assessment *)

Section AssessmentEdges.

Context {JS : JSRuntime}.

Lemma hyporheicPotential_eq (metrics : HydraulicMetrics)
    (params : StreamParams) :
  hyporheicPotential (stats (assessEcologicalHealth metrics params))
  = if sinuosityIndex metrics >? $1.5 then "High"%string
    else if sinuosityIndex metrics >? $1.3 then "Medium"%string
         else "Low"%string.
Proof.
  unfold assessEcologicalHealth.
  destruct ((rcRatio metrics params <? $2.0)
            && (sinuosityIndex metrics >? $1.05));
    [| destruct (sinuosityIndex metrics <? $1.2);
       [| destruct ((sinuosityIndex metrics >? $1.2)
                    && (sinuosityIndex metrics <? $1.5))]];
    simpl; destruct (sinuosityIndex metrics >? $1.5);
    destruct (sinuosityIndex metrics >? $1.3); reflexivity.
Qed.

Lemma habitatUnits_eq (metrics : HydraulicMetrics) (params : StreamParams) :
  habitatUnits (stats (assessEcologicalHealth metrics params))
  = Math_floor (channelLength metrics / ($6 * bankfullWidth params)).
Proof.
  unfold assessEcologicalHealth.
  destruct ((rcRatio metrics params <? $2.0)
            && (sinuosityIndex metrics >? $1.05));
    [| destruct (sinuosityIndex metrics <? $1.2);
       [| destruct ((sinuosityIndex metrics >? $1.2)
                    && (sinuosityIndex metrics <? $1.5))]];
    reflexivity.
Qed.

Lemma health_eq (metrics : HydraulicMetrics) (params : StreamParams) :
  health (assessEcologicalHealth metrics params)
  = if (rcRatio metrics params <? $2.0) && (sinuosityIndex metrics >? $1.05)
    then HIGH_RISK
    else if sinuosityIndex metrics <? $1.2 then DEGRADED
    else if (sinuosityIndex metrics >? $1.2)
            && (sinuosityIndex metrics <? $1.5)
    then RECOVERING
    else STABLE.
Proof.
  change (health (assessEcologicalHealth metrics params))
    with (fst (health (assessEcologicalHealth metrics params),
               warnings (assessEcologicalHealth metrics params))).
  rewrite assess_health_warnings.
  destruct (_ && _); [reflexivity |].
  destruct (_ <? $1.2); [reflexivity |].
  destruct (_ && _); reflexivity.
Qed.

(** X6. A sinuosity index that is NaN fails every test of the
    classifier: the stream is reported Stable, without warning and with
    a Low hyporheic potential. *)
Theorem X6_NaN_index_reported_stable (metrics : HydraulicMetrics)
    (params : StreamParams) :
  sinuosityIndex metrics = NaN ->
  let a := assessEcologicalHealth metrics params in
  health a = STABLE /\ warnings a = []
  /\ hyporheicPotential (stats a) = "Low"%string.
Proof.
  intros Hsi a.
  pose proof (assess_health_warnings metrics params) as H. cbv zeta in H.
  fold a in H. rewrite Hsi in H.
  change (NaN >? $1.05) with false in H. rewrite andb_false_r in H.
  change (NaN <? $1.2) with false in H. change (NaN >? $1.2) with false in H.
  simpl in H. injection H as Hh Hw.
  repeat split; [exact Hh | exact Hw |].
  subst a. rewrite hyporheicPotential_eq, Hsi. reflexivity.
Qed.

(** X7. The class and the hyporheic potential agree: a Degraded stream
    always has a Low potential, a Recovering one never a High
    potential, and a High potential comes only with Stable or
    HighRisk. *)
Theorem X7_health_and_hyporheic (metrics : HydraulicMetrics)
    (params : StreamParams) :
  let a := assessEcologicalHealth metrics params in
  (health a = DEGRADED -> hyporheicPotential (stats a) = "Low"%string)
  /\ (health a = RECOVERING -> hyporheicPotential (stats a) <> "High"%string)
  /\ (hyporheicPotential (stats a) = "High"%string ->
      health a = STABLE \/ health a = HIGH_RISK).
Proof.
  intros a. subst a. rewrite hyporheicPotential_eq, health_eq.
  destruct ((rcRatio metrics params <? $2.0)
            && (sinuosityIndex metrics >? $1.05)).
  - repeat split; try congruence. intros _. right. reflexivity.
  - destruct (sinuosityIndex metrics) as [| | |s]; simpl;
      try (repeat split; intros; solve [ congruence | auto ]).
    unfold gtb, ltb.
    destruct (Qltb s 1.2) eqn:E1, (Qltb 1.2 s) eqn:E2, (Qltb s 1.5) eqn:E3,
             (Qltb 1.5 s) eqn:E4, (Qltb 1.3 s) eqn:E5;
      qprop; try lra; simpl;
      repeat split; intros; solve [ congruence | auto ].
Qed.

(** X9. The habitat spacing is not guarded: with a bankfull width of 0
    the number of habitat units is never a finite number, whatever the
    channel length (an infinity, or NaN for a channel of length 0). *)
Theorem X9_habitat_units_zero_width (metrics : HydraulicMetrics)
    (params : StreamParams) :
  (bankfullWidth params =? $0) = true ->
  let units := habitatUnits (stats (assessEcologicalHealth metrics params)) in
  is_finite units = false
  /\ ((channelLength metrics =? $0) = true -> units = NaN).
Proof.
  intros Hw units. subst units. rewrite habitatUnits_eq.
  destruct (bankfullWidth params) as [| | |w]; try discriminate.
  simpl in Hw. qprop.
  change ($6 * Fin w) with (Fin (6 * w)).
  assert (Hz : Qeq_bool (6 * w) 0 = true) by (qprop; rewrite Hw; ring).
  destruct (channelLength metrics) as [| | |c]; unfold div;
    try rewrite Hz; unfold inf_of_sign, eqb.
  - split; [reflexivity | discriminate].
  - assert (Hn : Qltb (6 * w) 0 = false) by (qprop; rewrite Hw; lra).
    rewrite Hn. split; [reflexivity | discriminate].
  - assert (Hn : Qltb (6 * w) 0 = false) by (qprop; rewrite Hw; lra).
    rewrite Hn. split; [reflexivity | discriminate].
  - split.
    + destruct (Qltb 0 c); [reflexivity |].
      destruct (Qltb c 0); reflexivity.
    + intros Hc. qprop.
      assert (H1 : Qltb 0 c = false) by (qprop; lra).
      assert (H2 : Qltb c 0 = false) by (qprop; lra).
      rewrite H1, H2. reflexivity.
Qed.

End AssessmentEdges.

(* ================================================================== *)
(** * Further properties of the hydraulic metrics *)

Section HydraulicsEdges.

Context {JS : JSRuntime} {T : Turf}.

(** X11. With an amplitude that is not positive the radius of curvature
    is the literal 0, and on a channel of positive width the ratio
    radius / width is then 0: the design is flagged HighRisk as soon as
    the sinuosity index exceeds 1.05, and is Degraded below that. *)
Theorem X11_flat_design_classification (params : StreamParams)
    (meanderGeo : LineString) :
  let m := calculateHydraulics params meanderGeo in
  let a := assessEcologicalHealth m params in
  (amplitude params >? $0) = false ->
  positive_finite (bankfullWidth params) = true ->
  radiusOfCurvature m = $0
  /\ health a = (if sinuosityIndex m >? $1.05 then HIGH_RISK
                 else if sinuosityIndex m <? $1.2 then DEGRADED
                      else STABLE)
  /\ ((sinuosityIndex m >? $1.05) = true ->
      exists w : string,
        warnings a = [w]).
Proof.
  intros m a Hamp Hw.
  assert (Hrc : radiusOfCurvature m = $0).
  { subst m. unfold calculateHydraulics. cbn [radiusOfCurvature].
    rewrite Hamp. reflexivity. }
  apply positive_finite_Fin in Hw as (w & Hw & Hw0).
  assert (Hratio : (rcRatio m params <? $2.0) = true).
  { unfold rcRatio. rewrite Hrc, Hw.
    assert (Hg : (Fin w >? $0) = true) by (simpl; qprop; lra).
    rewrite Hg, div_Fin_nonzero by lra.
    simpl. qprop. assert (H0 : (0 / w == 0)%Q) by (field; lra).
    rewrite H0. lra. }
  split; [exact Hrc |].
  pose proof (assess_health_warnings m params) as Hhw. cbv zeta in Hhw.
  fold a in Hhw. rewrite Hratio in Hhw. rewrite andb_true_l in Hhw.
  split.
  - change (health a) with (fst (health a, warnings a)). rewrite Hhw.
    destruct (sinuosityIndex m) as [| | |s]; try reflexivity.
    unfold gtb, ltb.
    destruct (Qltb 1.05 s) eqn:E1; [reflexivity |].
    destruct (Qltb s 1.2) eqn:E2; [reflexivity |].
    qprop. lra.
  - intros Hsi. rewrite Hsi in Hhw.
    change (warnings a) with (snd (health a, warnings a)). rewrite Hhw.
    eexists. reflexivity.
Qed.

End HydraulicsEdges.

(* ================================================================== *)
(** * Editing the valley line and the parameters *)

Lemma with_valleyLine_same (s : StreamParams) :
  with_valleyLine s (valleyLine s) = s.
Proof. destruct s. reflexivity. Qed.

Lemma filter_index_length (line : list GeoPoint) (index : nat) :
  (index < List.length line)%nat ->
  S (List.length (filter_index line index)) = List.length line.
Proof.
  revert index. induction line as [|first rest IH]; intros index H; simpl in *.
  - lia.
  - destruct index as [|index]; [reflexivity |].
    simpl. rewrite IH by lia. reflexivity.
Qed.

Lemma filter_index_out_of_range (line : list GeoPoint) (index : nat) :
  (List.length line <= index)%nat -> filter_index line index = line.
Proof.
  revert index. induction line as [|first rest IH]; intros index H; simpl in *.
  - reflexivity.
  - destruct index as [|index]; [lia |].
    rewrite IH by lia. reflexivity.
Qed.

Lemma filter_index_nth (line : list GeoPoint) (index j : nat) :
  nth_error (filter_index line index) j
  = nth_error line (if (j <? index)%nat then j else S j).
Proof.
  revert index j. induction line as [|first rest IH]; intros index j; simpl.
  - destruct (j <? index)%nat; destruct j; reflexivity.
  - destruct index as [|index].
    + reflexivity.
    + destruct j as [|j]; [reflexivity |].
      simpl. rewrite IH.
      change (S j <? S index)%nat with (j <? index)%nat.
      destruct (j <? index)%nat; reflexivity.
Qed.

Lemma filter_index_last (line : list GeoPoint) (point : GeoPoint) :
  filter_index (line ++ [point]) (List.length line) = line.
Proof.
  induction line as [|first rest IH]; simpl; [reflexivity |].
  rewrite IH. reflexivity.
Qed.

Lemma array_set_in_range (line : list GeoPoint) (index : nat)
    (point : GeoPoint) :
  (index < List.length line)%nat ->
  exists newLine,
    array_set line index point = Some newLine
    /\ List.length newLine = List.length line
    /\ nth_error newLine index = Some point
    /\ forall j, j <> index -> nth_error newLine j = nth_error line j.
Proof.
  revert index. induction line as [|first rest IH]; intros index H; simpl in *.
  - lia.
  - destruct index as [|index].
    + eexists. split; [reflexivity |]. repeat split.
      intros [|j] Hj; [congruence | reflexivity].
    + destruct (IH index) as (rest' & -> & Hlen & Hnth & Hother); [lia |].
      eexists. split; [reflexivity |]. simpl. repeat split.
      * rewrite Hlen. reflexivity.
      * exact Hnth.
      * intros [|j] Hj; [reflexivity |]. simpl. apply Hother. congruence.
Qed.

Lemma array_set_length (line newLine : list GeoPoint) (index : nat)
    (point : GeoPoint) :
  array_set line index point = Some newLine ->
  (List.length line <= List.length newLine)%nat.
Proof.
  revert index newLine.
  induction line as [|first rest IH]; intros index newLine H; simpl in *.
  - lia.
  - destruct index as [|index].
    + injection H as <-. simpl. lia.
    + destruct (array_set rest index point) as [rest'|] eqn:E;
        [| discriminate].
      injection H as <-. simpl. specialize (IH _ _ E). lia.
Qed.

Lemma handlePointDelete_length (params prev : StreamParams) (index : nat) :
  (2 <= List.length (valleyLine prev))%nat ->
  (2 <= List.length (valleyLine (handlePointDelete params prev index)))%nat.
Proof.
  intros Hprev. unfold handlePointDelete.
  destruct (Nat.leb_spec (List.length (valleyLine params)) 2) as [Hle | Hgt];
    [exact Hprev |].
  simpl.
  destruct (Nat.lt_ge_cases index (List.length (valleyLine params)))
    as [Hin | Hout].
  - pose proof (filter_index_length _ Hin). lia.
  - rewrite filter_index_out_of_range by exact Hout. lia.
Qed.

(** X13. Deleting never leaves fewer than two valley points: whatever
    the index and whatever the render the handler was created in, the
    state after [handlePointDelete] has at least two points when the
    state before has. *)
Theorem X13_delete_keeps_two_points (params prev : StreamParams)
    (index : nat) :
  (2 <= List.length (valleyLine prev))%nat ->
  (2 <= List.length (valleyLine (handlePointDelete params prev index)))%nat.
Proof.
  intros Hprev. unfold handlePointDelete.
  destruct (Nat.leb_spec (List.length (valleyLine params)) 2) as [Hle | Hgt].
  - exact Hprev.
  - simpl.
    destruct (Nat.lt_ge_cases index (List.length (valleyLine params)))
      as [Hin | Hout].
    + pose proof (filter_index_length _ Hin). lia.
    + rewrite filter_index_out_of_range by exact Hout. lia.
Qed.

(** X14. On a valley line of more than two points, deleting the point
    at an index of the line removes exactly that point: the line is one
    point shorter, the points before the index stay in place and the
    points after it move down by one. *)
Theorem X14_delete_removes_one_point (s : StreamParams) (index : nat) :
  (2 < List.length (valleyLine s))%nat ->
  (index < List.length (valleyLine s))%nat ->
  let s' := handlePointDelete s s index in
  S (List.length (valleyLine s')) = List.length (valleyLine s)
  /\ forall j : nat,
       nth_error (valleyLine s') j
       = nth_error (valleyLine s) (if (j <? index)%nat then j else S j).
Proof.
  intros Hlen Hin s'. subst s'. unfold handlePointDelete.
  destruct (Nat.leb_spec (List.length (valleyLine s)) 2) as [Hle | Hgt];
    [lia |].
  simpl. split.
  - apply filter_index_length. exact Hin.
  - intros j. apply filter_index_nth.
Qed.

(** X15. Adding a point at the end of a valley line of at least two
    points and then deleting the last point gives back the state before
    the two edits; on a shorter line the guard of the deletion keeps
    the added point. *)
Theorem X15_add_then_delete_last (s : StreamParams) (point : GeoPoint) :
  (2 <= List.length (valleyLine s))%nat ->
  let s' := handlePointAdd s point in
  handlePointDelete s' s' (List.length (valleyLine s)) = s.
Proof.
  intros Hlen s'. subst s'. unfold handlePointDelete, handlePointAdd.
  simpl valleyLine. rewrite length_app. simpl List.length.
  destruct (Nat.leb_spec (List.length (valleyLine s) + 1) 2) as [Hle | Hgt];
    [lia |].
  rewrite filter_index_last. destruct s. reflexivity.
Qed.

(** X16. Moving the point at an index of the line replaces that point
    and nothing else: the line keeps its length, the new point is at
    the index and every other point is where it was. *)
Theorem X16_move_replaces_one_point (s : StreamParams) (index : nat)
    (point : GeoPoint) :
  (index < List.length (valleyLine s))%nat ->
  exists s' : StreamParams,
    handlePointMove s s index point = Some s'
    /\ List.length (valleyLine s') = List.length (valleyLine s)
    /\ nth_error (valleyLine s') index = Some point
    /\ forall j, j <> index ->
         nth_error (valleyLine s') j = nth_error (valleyLine s) j.
Proof.
  intros Hin. unfold handlePointMove.
  destruct (array_set_in_range (valleyLine s) point Hin)
    as (newLine & -> & Hlen & Hnth & Hother).
  eexists. split; [reflexivity |]. simpl. auto.
Qed.

(** X17. Every state that the application reaches, by any sequence of
    moves, additions, deletions and slider changes, from a state with
    at least two valley points has at least two valley points, so
    [generateMeander] never takes its early return there. *)
Theorem X17_reachable_states_have_two_points (s0 s : StreamParams)
    (events : list AppEvent) :
  (2 <= List.length (valleyLine s0))%nat ->
  app_run s0 events = Some s ->
  (2 <= List.length (valleyLine s))%nat
  /\ (List.length (valleyLine s) <? 2)%nat = false.
Proof.
  intros H0 Hrun.
  assert (Hinv : (2 <= List.length (valleyLine s))%nat).
  { revert s0 H0 Hrun.
    induction events as [|event rest IH]; intros s0 H0 Hrun; simpl in Hrun.
    - injection Hrun as <-. exact H0.
    - destruct (app_step s0 event) as [s1|] eqn:Hstep; [| discriminate].
      apply (IH s1); [| exact Hrun].
      destruct event as [index point | point | index | key value];
        simpl in Hstep.
      + unfold handlePointMove in Hstep.
        destruct (array_set (valleyLine s0) index point) as [newLine|] eqn:E;
          [| discriminate].
        injection Hstep as <-. simpl.
        pose proof (array_set_length _ _ _ E). lia.
      + injection Hstep as <-. simpl. rewrite length_app. lia.
      + injection Hstep as <-. apply handlePointDelete_length. exact H0.
      + injection Hstep as <-. exact H0. }
  split; [exact Hinv |].
  apply Nat.ltb_ge. exact Hinv.
Qed.

(** X18. Slider changes of two different parameters can be applied in
    either order, and of two changes of the same parameter the last one
    wins; no slider touches the valley line. *)
Theorem X18_slider_changes (params : StreamParams) (k1 k2 : ParamKey)
    (v1 v2 : number) :
  (k1 <> k2 ->
   handleChange (handleChange params k1 v1) k2 v2
   = handleChange (handleChange params k2 v2) k1 v1)
  /\ handleChange (handleChange params k1 v1) k1 v2
     = handleChange params k1 v2
  /\ valleyLine (handleChange params k1 v1) = valleyLine params.
Proof.
  repeat split.
  - intros Hk. destruct k1, k2; try congruence; reflexivity.
  - destruct k1; reflexivity.
Qed.

(* ================================================================== *)
(** * What the map and the dashboard show *)

Section PresentationFacts.

Context {JS : JSRuntime} {T : Turf}.

Lemma nth_error_seq_map (A : Type) (f : nat -> A) (n k : nat) :
  (k < n)%nat -> nth_error (map f (seq 0 n)) k = Some (f k).
Proof.
  intros H. rewrite nth_error_map.
  assert (Hs : forall start, nth_error (seq start n) k = Some (start + k)%nat).
  { revert k H. induction n as [|n IH]; intros k H start; [lia |].
    destruct k as [|k]; simpl.
    - f_equal. lia.
    - rewrite IH by lia. f_equal. lia. }
  rewrite Hs. reflexivity.
Qed.

Lemma of_nat_eqb_zero (k : nat) : (of_nat k =? $0) = (k =? 0)%nat.
Proof.
  unfold of_nat, eqb. destruct (Nat.eqb_spec k 0) as [-> | Hne].
  - reflexivity.
  - apply Qeq_bool_false. intros H.
    change 0%Q with (inject_Z 0) in H.
    apply (proj1 (inject_Z_injective _ _)) in H. lia.
Qed.

Lemma of_nat_eqb_pred (k n : nat) :
  (of_nat k =? of_nat n - $1) = (S k =? n)%nat.
Proof.
  unfold of_nat.
  change (Fin (inject_Z (Z.of_nat k)) =? Fin (inject_Z (Z.of_nat n)) - $1)
    with (Qeq_bool (inject_Z (Z.of_nat k)) (inject_Z (Z.of_nat n) - 1)).
  destruct (Nat.eqb_spec (S k) n) as [Heq | Hne].
  - apply Qeq_bool_iff. subst n.
    rewrite Nat2Z.inj_succ. unfold Z.succ. rewrite inject_Z_plus.
    change (inject_Z 1) with 1%Q. ring.
  - apply Qeq_bool_false. intros H.
    assert (H' : (inject_Z (Z.of_nat k + 1) == inject_Z (Z.of_nat n))%Q).
    { rewrite inject_Z_plus. change (inject_Z 1) with 1%Q. rewrite H. ring. }
    apply (proj1 (inject_Z_injective _ _)) in H'. lia.
Qed.

(** X20. The markers of a valley line: the last point is labelled
    "End (Downstream)" in red (also when it is the only point), the
    first point of a line of two or more is "Start (Upstream)" in blue,
    and every point in between is "Point k" with [k] counted from 1. *)
Theorem X20_marker_labels (params : StreamParams) (k : nat) :
  (k < List.length (valleyLine params))%nat ->
  nth_error (markers params) k
  = Some (if (S k =? List.length (valleyLine params))%nat
          then ("End (Downstream)"%string, "text-red-600"%string)
          else if (k =? 0)%nat
               then ("Start (Upstream)"%string, "text-blue-600"%string)
               else (("Point " ++ toString (of_nat k + $1))%string,
                     "text-slate-800"%string)).
Proof.
  intros Hk. unfold markers. rewrite nth_error_seq_map by exact Hk.
  unfold markerLabel. rewrite of_nat_eqb_zero, of_nat_eqb_pred.
  destruct (k =? 0)%nat, (S k =? List.length (valleyLine params))%nat;
    reflexivity.
Qed.

End PresentationFacts.

(* ================================================================== *)
(** * The further laws on the reference runtime, and runs of the
      further properties on the reference instance *)

Lemma Planar_sin_zero : sin_zero Planar.runtime.
Proof.
  intros x Hx. exists (Qred (Planar.Qsin x)). split; [reflexivity |].
  rewrite Qred_correct. unfold Planar.Qsin.
  assert (H1 : Qle_bool 0 x = true) by (apply Qle_bool_iff; lra).
  assert (H2 : Qle_bool x Qpi = true)
    by (apply Qle_bool_iff; rewrite Hx; unfold Qpi; discriminate).
  rewrite H1, H2. simpl andb. unfold Planar.Qsin_arch.
  rewrite Hx. unfold Qdiv. ring.
Qed.

Lemma X1_wavelength_floor_witness :
  @generateMeander Planar.runtime Planar.turf 8 Example.bent_valley
    $20 $5 pointsPerWave_default
  = @generateMeander Planar.runtime Planar.turf 8 Example.bent_valley
      $20 $10 pointsPerWave_default.
Proof.
  apply (@X1_wavelength_floor Planar.runtime Planar.turf).
  reflexivity.
Defined.

Lemma X2_NaN_wavelength_witness :
  @Raising.generateMeander Planar.runtime Planar.turf Planar.raises 8
    Example.bent_valley $20 NaN pointsPerWave_default
  = Raising.Raised.
Proof.
  apply (@X2_NaN_wavelength Planar.runtime Planar.turf Planar.raises 8
           Example.bent_valley $20 pointsPerWave_default).
  - exact Planar_lineString_needs_two.
  - simpl. lia.
  - lia.
Defined.

Lemma X3_infinite_steps_witness :
  @generateMeander Planar.runtime Planar.turf 8 Example.straight_valley
    $20 $100 PosInf
  = None.
Proof.
  apply (@X3_infinite_steps Planar.runtime Planar.turf
           Example.straight_valley $20 $100 PosInf).
  - simpl. lia.
  - vm_compute. reflexivity.
Defined.

Lemma X5_path_starts_on_axis_witness :
  exists (first : Position) (rest : list Position) (d z : Q) (b : number),
    @generateMeander Planar.runtime Planar.turf 8 Example.bent_valley
      $20 $250 pointsPerWave_default
    = Some (mkLineString (first :: rest))
    /\ (d == 0)%Q /\ (z == 0)%Q
    /\ first = @turf_destination Planar.turf
                 (@turf_along Planar.turf
                    (@smoothedValleyOf Planar.turf Example.bent_valley)
                    (Fin d))
                 (Fin z) b.
Proof.
  destruct (@X5_path_starts_on_axis Planar.runtime Planar.turf 8
              Example.bent_valley 20 (3606653 # 50000) 250
              Planar_sin_zero Planar_pow_fifth_finite)
    as (steps & Hsteps & Hts & Hrun).
  - simpl. lia.
  - vm_compute. reflexivity.
  - reflexivity.
  - vm_compute in Hts. injection Hts as Hts. subst steps.
    apply Hrun. simpl. lia.
Defined.

Lemma X6_NaN_index_reported_stable_witness :
  let params := Example.params Example.straight_valley $20 $100 in
  let m := @calculateHydraulics Planar.runtime Planar.turf params
             (mkLineString [(NaN, NaN); Example.pos 30 40]) in
  let a := @assessEcologicalHealth Planar.runtime m params in
  health a = STABLE /\ warnings a = []
  /\ hyporheicPotential (stats a) = "Low"%string.
Proof.
  intros params m a.
  apply (@X6_NaN_index_reported_stable Planar.runtime m params).
  vm_compute. reflexivity.
Defined.

Lemma X7_health_and_hyporheic_witness :
  let params := Example.params Example.straight_valley $20 $250 in
  let m := @calculateHydraulics Planar.runtime Planar.turf params
             Example.detour in
  let a := @assessEcologicalHealth Planar.runtime m params in
  health a = RECOVERING /\ hyporheicPotential (stats a) <> "High"%string.
Proof.
  intros params m a.
  assert (H : health a = RECOVERING) by (vm_compute; reflexivity).
  split; [exact H |].
  apply (@X7_health_and_hyporheic Planar.runtime m params). exact H.
Defined.

Lemma X9_habitat_units_zero_width_witness :
  let params := @handleChange
                  (Example.params Example.straight_valley $20 $100)
                  K_bankfullWidth $0 in
  let m := @calculateHydraulics Planar.runtime Planar.turf params
             Example.detour in
  is_finite
    (habitatUnits (stats (@assessEcologicalHealth Planar.runtime m params)))
  = false.
Proof.
  intros params m.
  apply (@X9_habitat_units_zero_width Planar.runtime m params).
  reflexivity.
Defined.

Lemma X11_flat_design_classification_witness :
  let params := Example.params Example.straight_valley $0 $100 in
  let m := @calculateHydraulics Planar.runtime Planar.turf params
             Example.detour in
  let a := @assessEcologicalHealth Planar.runtime m params in
  radiusOfCurvature m = $0
  /\ health a = (if sinuosityIndex m >? $1.05 then HIGH_RISK
                 else if sinuosityIndex m <? $1.2 then DEGRADED
                      else STABLE)
  /\ ((sinuosityIndex m >? $1.05) = true ->
      exists w : string, warnings a = [w]).
Proof.
  intros params m a.
  apply (@X11_flat_design_classification Planar.runtime Planar.turf params
           Example.detour);
    reflexivity.
Defined.

Lemma X13_delete_keeps_two_points_witness :
  (2 <= List.length
          (valleyLine (handlePointDelete INITIAL_PARAMS INITIAL_PARAMS 1)))%nat.
Proof.
  apply (@X13_delete_keeps_two_points INITIAL_PARAMS INITIAL_PARAMS 1%nat).
  simpl. lia.
Defined.

Lemma X14_delete_removes_one_point_witness :
  let s' := handlePointDelete INITIAL_PARAMS INITIAL_PARAMS 1 in
  S (List.length (valleyLine s')) = List.length (valleyLine INITIAL_PARAMS)
  /\ forall j : nat,
       nth_error (valleyLine s') j
       = nth_error (valleyLine INITIAL_PARAMS)
           (if (j <? 1)%nat then j else S j).
Proof.
  apply (@X14_delete_removes_one_point INITIAL_PARAMS 1%nat); simpl; lia.
Defined.

Lemma X15_add_then_delete_last_witness :
  let s' := handlePointAdd INITIAL_PARAMS (Example.pt 30 (-29)) in
  handlePointDelete s' s' 3 = INITIAL_PARAMS.
Proof.
  apply (@X15_add_then_delete_last INITIAL_PARAMS (Example.pt 30 (-29))).
  simpl. lia.
Defined.

Lemma X16_move_replaces_one_point_witness :
  exists s' : StreamParams,
    handlePointMove INITIAL_PARAMS INITIAL_PARAMS 1 (Example.pt 30 (-29))
    = Some s'
    /\ List.length (valleyLine s') = List.length (valleyLine INITIAL_PARAMS)
    /\ nth_error (valleyLine s') 1 = Some (Example.pt 30 (-29))
    /\ forall j, j <> 1%nat ->
         nth_error (valleyLine s') j = nth_error (valleyLine INITIAL_PARAMS) j.
Proof.
  apply (@X16_move_replaces_one_point INITIAL_PARAMS 1%nat
           (Example.pt 30 (-29))).
  simpl. lia.
Defined.

Lemma X17_reachable_states_have_two_points_witness :
  let events := [PointDelete 0; PointDelete 0; ParamChange K_amplitude $0;
                 PointAdd (Example.pt 30 (-29)); PointDelete 1] in
  exists s : StreamParams,
    app_run INITIAL_PARAMS events = Some s
    /\ (2 <= List.length (valleyLine s))%nat
    /\ (List.length (valleyLine s) <? 2)%nat = false.
Proof.
  intros events. eexists. split; [reflexivity |].
  apply (@X17_reachable_states_have_two_points INITIAL_PARAMS _ events).
  - simpl. lia.
  - reflexivity.
Defined.

Lemma X18_slider_changes_witness :
  handleChange (handleChange INITIAL_PARAMS K_amplitude $0) K_wavelength $50
  = handleChange (handleChange INITIAL_PARAMS K_wavelength $50) K_amplitude $0.
Proof.
  apply (@X18_slider_changes INITIAL_PARAMS K_amplitude K_wavelength $0 $50).
  discriminate.
Defined.

Lemma X20_marker_labels_witness :
  nth_error (@markers Planar.runtime INITIAL_PARAMS) 2
  = Some ("End (Downstream)"%string, "text-red-600"%string)
  /\ nth_error (@markers Planar.runtime INITIAL_PARAMS) 1
     = Some ("Point 2"%string, "text-slate-800"%string).
Proof.
  split.
  - apply (@X20_marker_labels Planar.runtime INITIAL_PARAMS 2%nat). simpl. lia.
  - apply (@X20_marker_labels Planar.runtime INITIAL_PARAMS 1%nat). simpl. lia.
Defined.

(* ================================================================== *)
(** * The sliders keep the parameters regular *)

Lemma in_range_bounds (key : ParamKey) (value : number) :
  in_range key value = true ->
  exists lo hi q : Q,
    slider_range key = Some (lo, hi) /\ value = Fin q
    /\ (lo <= q)%Q /\ (q <= hi)%Q.
Proof.
  unfold in_range. destruct (slider_range key) as [[lo hi]|];
    [| discriminate].
  intros H. apply andb_true_iff in H as [Hlo Hhi].
  destruct value as [| | |q]; try discriminate.
  exists lo, hi, q. repeat split; apply leb_Fin; assumption.
Qed.

Lemma within_slider_ranges_step (s s' : StreamParams) (event : AppEvent) :
  within_slider_ranges s = true -> from_sliders event = true ->
  app_step s event = Some s' ->
  within_slider_ranges s' = true.
Proof.
  intros Hs Hev Hstep.
  destruct event as [index point | point | index | key value];
    simpl in Hstep.
  - unfold handlePointMove in Hstep.
    destruct (array_set (valleyLine s) index point); [| discriminate].
    injection Hstep as <-. exact Hs.
  - injection Hstep as <-. exact Hs.
  - injection Hstep as <-. unfold handlePointDelete.
    destruct (List.length (valleyLine s) <=? 2)%nat; exact Hs.
  - injection Hstep as <-. simpl in Hev.
    unfold within_slider_ranges, sliders in *. simpl forallb in *.
    repeat rewrite andb_true_iff in *.
    destruct key; simpl get_param in *; try discriminate; tauto.
Qed.

(** X21. Starting from parameters within the ranges of the sliders (as
    the initial parameters are), no sequence of map edits and slider
    moves leaves the ranges; width, depth, roughness and valley slope
    therefore stay positive finite numbers, the amplitude a non-negative
    one, and the wavelength is never below the floor of 10 m that
    [generateMeander] applies. *)
Theorem X21_sliders_keep_parameters_regular (s0 s : StreamParams)
    (events : list AppEvent) :
  within_slider_ranges s0 = true ->
  forallb from_sliders events = true ->
  app_run s0 events = Some s ->
  within_slider_ranges s = true
  /\ valid_channel s = true
  /\ positive_finite (valleySlope s) = true
  /\ nonneg_finite (amplitude s) = true
  /\ Math_max (wavelength s) $10 = wavelength s.
Proof.
  intros H0 Hev Hrun.
  assert (Hinv : within_slider_ranges s = true).
  { revert s0 H0 Hrun.
    induction events as [|event rest IH]; intros s0 H0 Hrun; simpl in *.
    - injection Hrun as <-. exact H0.
    - apply andb_true_iff in Hev as [Hev Hrest].
      destruct (app_step s0 event) as [s1|] eqn:Hstep; [| discriminate].
      apply (IH Hrest s1); [| exact Hrun].
      exact (within_slider_ranges_step _ _ H0 Hev Hstep). }
  split; [exact Hinv |].
  unfold within_slider_ranges, sliders in Hinv. simpl forallb in Hinv.
  repeat rewrite andb_true_iff in Hinv.
  destruct Hinv as (Ha & Hwl & Hw & Hvs & Hd & Hn & _).
  apply in_range_bounds in Ha as (lo1 & hi1 & a & E1 & Ha & Ha1 & Ha2).
  apply in_range_bounds in Hwl as (lo2 & hi2 & wl & E2 & Hwl & Hwl1 & Hwl2).
  apply in_range_bounds in Hw as (lo3 & hi3 & w & E3 & Hw & Hw1 & Hw2).
  apply in_range_bounds in Hvs as (lo4 & hi4 & vs & E4 & Hvs & Hvs1 & Hvs2).
  apply in_range_bounds in Hd as (lo5 & hi5 & d & E5 & Hd & Hd1 & Hd2).
  apply in_range_bounds in Hn as (lo6 & hi6 & n & E6 & Hn & Hn1 & Hn2).
  simpl in E1, E2, E3, E4, E5, E6, Ha, Hwl, Hw, Hvs, Hd, Hn.
  injection E1 as <- <-. injection E2 as <- <-. injection E3 as <- <-.
  injection E4 as <- <-. injection E5 as <- <-. injection E6 as <- <-.
  assert (Hpos : forall q : Q, (0 < q)%Q -> positive_finite (Fin q) = true).
  { intros q Hq. unfold positive_finite. simpl. qprop. exact Hq. }
  unfold valid_channel. rewrite Ha, Hwl, Hw, Hvs, Hd, Hn.
  rewrite !Hpos by lra. repeat split.
  - unfold nonneg_finite, geb. simpl is_finite. apply leb_Fin. exact Ha1.
  - unfold Math_max, ltb.
    assert (Hq : Qltb wl 10 = false) by (qprop; lra).
    rewrite Hq. reflexivity.
Qed.

Lemma X21_sliders_keep_parameters_regular_witness :
  let events := [ParamChange K_bankfullWidth $1; PointDelete 0;
                 ParamChange K_wavelength $20; ParamChange K_amplitude $0] in
  exists s : StreamParams,
    app_run INITIAL_PARAMS events = Some s
    /\ within_slider_ranges s = true
    /\ valid_channel s = true
    /\ positive_finite (valleySlope s) = true
    /\ nonneg_finite (amplitude s) = true
    /\ Math_max (wavelength s) $10 = wavelength s.
Proof.
  intros events. eexists. split; [reflexivity |].
  apply (@X21_sliders_keep_parameters_regular INITIAL_PARAMS _ events);
    reflexivity.
Defined.

(* ================================================================== *)
(** * The added length of the dashboard *)

Section AddedLength.

Context {JS : JSRuntime} {T : Turf}.

(** X22. When the lengths are finite and the dashboard shows an added
    length that is not positive (the path is not longer than the valley
    line), the sinuosity index it shows next to it is exactly 1: the
    clamp hides how much shorter the path is. *)
Theorem X22_added_length_not_positive (params : StreamParams)
    (meanderGeo : LineString) :
  let m := calculateHydraulics params meanderGeo in
  is_finite (valleyLength m) = true ->
  is_finite (channelLength m) = true ->
  (addedLength m <=? $0) = true ->
  sinuosityIndex m = $1.
Proof.
  intros m Hv Hc Hadd. unfold addedLength in Hadd.
  unfold m. rewrite sinuosityIndex_eq.
  fold (calculateHydraulics params meanderGeo). fold m.
  destruct (valleyLength m) as [| | |v]; try discriminate.
  destruct (channelLength m) as [| | |c]; try discriminate.
  change (Fin c - Fin v) with (Fin (c - v)) in Hadd.
  apply leb_Fin in Hadd.
  unfold gtb, ltb. destruct (Qltb 0 v) eqn:Ev; [| reflexivity].
  qprop. rewrite div_Fin_nonzero by lra.
  unfold Math_max, ltb.
  assert (Hq : Qltb 1 (c / v) = false).
  { qprop. apply Qle_shift_div_r; lra. }
  rewrite Hq. reflexivity.
Qed.

End AddedLength.

Lemma X22_added_length_not_positive_witness :
  let m := @calculateHydraulics Planar.runtime Planar.turf
             (Example.params Example.bent_valley $0 $1000000)
             (mkLineString [Example.pos 0 0; Example.pos 40 30]) in
  sinuosityIndex m = $1.
Proof.
  intros m.
  apply (@X22_added_length_not_positive Planar.runtime Planar.turf
           (Example.params Example.bent_valley $0 $1000000)
           (mkLineString [Example.pos 0 0; Example.pos 40 30]));
    vm_compute; reflexivity.
Defined.
